(** * Resource identifiers, stack resolution and sync-flow dispatch

    A shallow embedding of [samcli/lib/sync/sync_flow_factory.py] and of the
    part of [samcli/lib/providers/provider.py] it relies on
    ([ResourceIdentifier], [Stack], [get_resource_by_id],
    [get_resources_by_type]), the latter pinned down by
    [tests/unit/commands/local/lib/test_provider.py].

    Python objects are modelled as follows:
    - [str] is [string]; a [Dict[str, str]] whose order is never observed is a
      [gmap string string]; a dict whose insertion order is observed (the
      [resources] of a stack, a resource body) is an association list;
    - a value of type [Any] read out of a template is a [value];
    - an object that is mutated in place and shared (the physical-id mapping)
      lives in a [heap] and is referred to by its address;
    - a call that may raise returns a [result]. *)

From Stdlib Require Import String Ascii List Bool ZArith.
From stdpp Require Import base option list gmap strings.
Import ListNotations.

Local Open Scope string_scope.
Set Warnings "-register-all".

(** ** Python values and results *)

(** A value of Python type [Any] as it occurs inside a loaded template. *)
Inductive value : Type :=
| VNone
| VBool (b : bool)
| VInt (z : Z)
| VStr (s : string)
| VList (l : list value)
| VDict (d : list (string * value)).

(** An insertion-ordered [Dict[str, V]]. *)
Definition dict (V : Type) : Type := list (string * V).

(** [d.get(k)]: the entry stored under [k], if any. *)
Fixpoint dict_get {V : Type} (k : string) (d : dict V) : option V :=
  match d with
  | [] => None
  | (k', v) :: d' => if String.eqb k' k then Some v else dict_get k d'
  end.

Inductive exn : Type :=
| AttributeError
| TypeError
| ClientError.

Inductive result (A : Type) : Type :=
| Ok (a : A)
| Raise (e : exn).
Arguments Ok {A} a.
Arguments Raise {A} e.

(** Python truthiness, [bool(v)]. *)
Definition truthy (v : value) : bool :=
  match v with
  | VNone => false
  | VBool b => b
  | VInt z => negb (Z.eqb z 0)
  | VStr s => negb (String.eqb s "")
  | VList l => match l with [] => false | _ => true end
  | VDict d => match d with [] => false | _ => true end
  end.

(** Whether [hash(v)] succeeds: lists and dicts are unhashable. *)
Definition hashable (v : value) : bool :=
  match v with
  | VList _ | VDict _ => false
  | _ => true
  end.

(** [v == s] for a [str] constant [s]: only an equal [str] compares equal. *)
Definition value_eq_str (v : value) (s : string) : bool :=
  match v with
  | VStr s' => String.eqb s' s
  | _ => false
  end.

(** ** Resource identifiers *)

(** [posixpath.sep] *)
Definition sep : ascii := "/"%char.

(** [s.rsplit(sep, 1)] when [sep] occurs in [s]: the text before and after
    its last occurrence; [None] when [sep] does not occur. *)
Fixpoint rsplit_sep (s : string) : option (string * string) :=
  match s with
  | EmptyString => None
  | String c rest =>
      match rsplit_sep rest with
      | Some (before, after) => Some (String c before, after)
      | None => if Ascii.eqb c sep then Some (EmptyString, rest) else None
      end
  end.

(** [sep in s] *)
Fixpoint contains_sep (s : string) : bool :=
  match s with
  | EmptyString => false
  | String c rest => Ascii.eqb c sep || contains_sep rest
  end.

(** [s.split(sep)]: the [sep]-delimited segments of [s], never empty. *)
Fixpoint segments (s : string) : list string :=
  match s with
  | EmptyString => [EmptyString]
  | String c rest =>
      if Ascii.eqb c sep then EmptyString :: segments rest
      else match segments rest with
           | seg :: segs => String c seg :: segs
           | [] => [String c EmptyString]
           end
  end.

(** [sep.join(segs)] *)
Fixpoint join_sep (segs : list string) : string :=
  match segs with
  | [] => EmptyString
  | [seg] => seg
  | seg :: segs' => seg +:+ String sep (join_sep segs')
  end.

(** [posixpath.join(a, b)] as the spec has it: the [/]-join of a path and
    a name, with nothing prepended to the name under the root path. *)
Definition path_join (a b : string) : string :=
  if String.eqb a "" then b else a +:+ String sep b.

Module ResourceIdentifier.

(** Modelled from the spec: the class [ResourceIdentifier] of
    [samcli/lib/providers/provider.py] is missing from the sources, only
    its tests are there. An identifier is the pair of the [/]-joined
    path of the ancestor stacks, empty for the root, and the logical id of
    the resource within its stack. *)
Record t : Type := mk { stack_path : string; logical_id : string }.

(** Modelled from the spec: the constructor of [ResourceIdentifier], missing
    from the sources. It splits on the last [/]. *)
Definition parse (raw : string) : t :=
  match rsplit_sep raw with
  | Some (before, after) => mk before after
  | None => mk "" raw
  end.

(** Modelled from the spec: the same constructor in the spec's second
    wording, the last [/]-delimited segment is the logical id and the
    preceding segments joined with [/] are the stack path. *)
Definition parse_segments (raw : string) : t :=
  let segs := segments raw in
  mk (join_sep (removelast segs)) (List.last segs "").

(** Modelled from the spec: [__str__] of [ResourceIdentifier], missing from
    the sources. The stack path and the logical id joined with [/], the
    logical id alone under the root. *)
Definition to_string (r : t) : string :=
  stack_path r +:+ (if String.eqb (stack_path r) "" then "" else String sep "")
               +:+ logical_id r.

(** Modelled from the spec: [__eq__], structural over both fields. *)
Definition eqb (a b : t) : bool :=
  String.eqb (stack_path a) (stack_path b)
  && String.eqb (logical_id a) (logical_id b).

(** Modelled from the spec: [__hash__], the hash of the pair of fields,
    for any hash [h] of pairs of strings. *)
Definition hash {H : Type} (h : string * string -> H) (r : t) : H :=
  h (stack_path r, logical_id r).

End ResourceIdentifier.

(** ** Stacks *)

Module Stack.

(** Modelled from the spec: the class [Stack] of
    [samcli/lib/providers/provider.py] is missing from the sources; the
    tests build it as [Stack(parent_stack_path, name, ...)]. [R] is the
    type of a resource body. *)
Record t (R : Type) : Type := mk {
  parent_stack_path : string;
  name : string;
  resources : dict R
}.
Arguments mk {R} _ _ _.
Arguments parent_stack_path {R} _.
Arguments name {R} _.
Arguments resources {R} _.

(** Modelled from the spec: the attribute [stack_path] the resolver
    compares with an identifier's stack path, the full path of the stack:
    the [/]-join of its ancestor path and its own name, empty for the
    root stack. *)
Definition stack_path {R : Type} (s : t R) : string :=
  path_join (parent_stack_path s) (name s).

End Stack.

(** ** The resolver *)

(** The first stack of the list whose full path is [path]. *)
Fixpoint find_stack {R : Type} (path : string) (stacks : list (Stack.t R))
  : option (Stack.t R) :=
  match stacks with
  | [] => None
  | stack :: rest =>
      if String.eqb (Stack.stack_path stack) path then Some stack
      else find_stack path rest
  end.

(** The linear scan of the implicit mode: the resource of the first stack
    of the list that has [logical_id] among its resources. *)
Fixpoint scan_stacks {R : Type} (logical_id : string) (stacks : list (Stack.t R))
  : option R :=
  match stacks with
  | [] => None
  | stack :: rest =>
      match dict_get logical_id (Stack.resources stack) with
      | Some resource => Some resource
      | None => scan_stacks logical_id rest
      end
  end.

(** Modelled from the spec: [get_resource_by_id] of
    [samcli/lib/providers/provider.py], missing from the sources, only its
    tests are there. [None] is the not-found sentinel. *)
Definition get_resource_by_id {R : Type} (stacks : list (Stack.t R))
    (identifier : ResourceIdentifier.t) (explicit_nested : bool) : option R :=
  if explicit_nested
     || negb (String.eqb (ResourceIdentifier.stack_path identifier) "")
  then
    match find_stack (ResourceIdentifier.stack_path identifier) stacks with
    | Some stack =>
        dict_get (ResourceIdentifier.logical_id identifier) (Stack.resources stack)
    | None => None
    end
  else scan_stacks (ResourceIdentifier.logical_id identifier) stacks.

(** The value [explicit_nested] takes when a caller of [get_resource_by_id]
    leaves it out, as [create_sync_flow] does. The signature of the resolver
    is not part of the modelled sources: the default is a parameter. *)
Class ResolverDefault : Type := {
  explicit_nested_default : bool
}.

(** [resource.get("Type") == resource_type] *)
Definition has_type (resource_type : string) (resource : dict value) : bool :=
  match dict_get "Type" resource with
  | Some v => value_eq_str v resource_type
  | None => false
  end.

(** The inner loop of [get_resources_by_type] over [stack.resources.items()],
    appending to the list built so far. *)
Fixpoint scan_resources (path resource_type : string)
    (items : dict (dict value)) (acc : list ResourceIdentifier.t)
  : list ResourceIdentifier.t :=
  match items with
  | [] => acc
  | (logical_id, resource) :: rest =>
      scan_resources path resource_type rest
        (if has_type resource_type resource
         then (acc ++ [ResourceIdentifier.parse (path_join path logical_id)])%list
         else acc)
  end.

(** The outer loop of [get_resources_by_type] over the stacks. *)
Fixpoint scan_types (resource_type : string)
    (stacks : list (Stack.t (dict value))) (acc : list ResourceIdentifier.t)
  : list ResourceIdentifier.t :=
  match stacks with
  | [] => acc
  | stack :: rest =>
      scan_types resource_type rest
        (scan_resources (Stack.stack_path stack) resource_type
           (Stack.resources stack) acc)
  end.

(** Modelled from the spec: [get_resources_by_type] of
    [samcli/lib/providers/provider.py], missing from the sources, only its
    tests are there. *)
Definition get_resources_by_type (stacks : list (Stack.t (dict value)))
    (resource_type : string) : list ResourceIdentifier.t :=
  scan_types resource_type stacks [].

(** The identifiers [get_resources_by_type] is specified to return, stack by
    stack and resource by resource. *)
Definition matching_identifiers (resource_type : string)
    (stacks : list (Stack.t (dict value))) : list ResourceIdentifier.t :=
  flat_map
    (fun stack =>
       map (fun item =>
              ResourceIdentifier.parse (path_join (Stack.stack_path stack) (fst item)))
           (List.filter (fun item => has_type resource_type (snd item))
                        (Stack.resources stack)))
    stacks.

(** ** The sync-flow factory *)

(** The constants of [samcli.lib.utils.packagetype] the factory compares a
    function's [PackageType] with. Their values are not part of the modelled
    sources: they are parameters. *)
Class PackageTypes : Type := {
  ZIP : string;
  IMAGE : string
}.

(** The resource type names the dispatch table is keyed by, constants of
    [SamBaseProvider], [SamApiProvider] and [CfnApiProvider]. Their values
    are not part of the modelled sources: they are parameters. *)
Class ResourceTypes : Type := {
  LAMBDA_FUNCTION : string;
  SERVERLESS_FUNCTION : string;
  SERVERLESS_LAYER : string;
  LAMBDA_LAYER : string;
  SERVERLESS_API : string;
  APIGATEWAY_RESTAPI : string;
  SERVERLESS_HTTP_API : string;
  APIGATEWAY_V2_API : string
}.

(** The fields of a [DeployContext] the factory reads. *)
Record DeployContext : Type := {
  region : option string;
  stack_name : string
}.

(** [botocore.config.Config(region_name=...)] *)
Record Config : Type := { region_name : option string }.

(** Addresses of dict objects, and the store of the dicts that are shared
    and mutated in place. *)
Definition loc : Type := positive.
Abbreviation heap := (gmap loc (gmap string string)).

(** What iterating [stack.resource_summaries.all()] does: it yields resource
    summaries page by page and then stops, or a request for a further page
    raises. *)
Inductive summaries : Type :=
| Exhausted
| Failed (e : exn)
| Summary (logical_resource_id physical_resource_id : string) (rest : summaries).

(** The deployed state [boto3] reads: for a client configuration and a stack
    name, the iteration of that stack's resource summaries. *)
Definition cloudformation : Type := Config -> string -> summaries.

(** The summaries a successful fetch of the entries [l] yields. *)
Fixpoint summaries_of (l : list (string * string)) : summaries :=
  match l with
  | [] => Exhausted
  | (k, v) :: rest => Summary k v (summaries_of rest)
  end.

(** The entries an iteration yields before it stops or raises. *)
Fixpoint yielded (rs : summaries) : list (string * string) :=
  match rs with
  | Exhausted | Failed _ => []
  | Summary k v rest => (k, v) :: yielded rest
  end.

(** How an iteration ends: it stops, or it raises after the entries it
    yielded. *)
Fixpoint outcome (rs : summaries) : result unit :=
  match rs with
  | Exhausted => Ok tt
  | Failed e => Raise e
  | Summary _ _ rest => outcome rest
  end.

(** [for k, v in l: m[k] = v] *)
Definition assign_all (l : list (string * string)) (m : gmap string string)
  : gmap string string :=
  foldl (fun acc kv => <[kv.1 := kv.2]> acc) m l.

(** A Python dict display [{k1: v1, ..., kn: vn}]: the entries are stored in
    order, a later one replaces an earlier one under the same key. *)
Definition dict_display {V : Type} (entries : list (string * V)) : gmap string V :=
  foldl (fun acc kv => <[kv.1 := kv.2]> acc) ∅ entries.

Section Factory.

Context {BuildContext : Type}.
Context `{PT : PackageTypes} `{RT : ResourceTypes} `{RD : ResolverDefault}.

Abbreviation stack_list := (list (Stack.t (dict value))).

(** Modelled from the spec: the flow classes [ZipFunctionSyncFlow] and
    [ImageFunctionSyncFlow] are missing from the sources. A handler is given
    the resource identifier, the build and deploy configuration, the
    physical-id mapping and the stack list, and is represented by the
    constructor call that makes it. Python passes the mapping, a dict, by
    reference: what the handler is given, and holds, is the dict's
    address. *)
Inductive SyncFlow : Type :=
| ZipFunctionSyncFlow (function_identifier : string)
    (build_context : BuildContext) (deploy_context : DeployContext)
    (physical_id_mapping : loc) (stacks : stack_list)
| ImageFunctionSyncFlow (function_identifier : string)
    (build_context : BuildContext) (deploy_context : DeployContext)
    (physical_id_mapping : loc) (stacks : stack_list).

(** The address of the physical-id mapping a flow was given. *)
Definition flow_mapping_ref (flow : SyncFlow) : loc :=
  match flow with
  | ZipFunctionSyncFlow _ _ _ l _ | ImageFunctionSyncFlow _ _ _ l _ => l
  end.

(** The physical-id mapping a flow sees in a store. *)
Definition flow_mapping (flow : SyncFlow) (h : heap) : option (gmap string string) :=
  h !! flow_mapping_ref flow.

Record SyncFlowFactory : Type := {
  _deploy_context : DeployContext;
  _build_context : BuildContext;
  _stacks : stack_list;
  _boto_config : Config;
  _physical_id_mapping : loc
}.

(** [SyncFlowFactory.__init__]: [dict()] allocates a new, empty dict. *)
Definition __init__ (build_context : BuildContext) (deploy_context : DeployContext)
    (stacks : stack_list) (h : heap) : SyncFlowFactory * heap :=
  let l := fresh (dom h) in
  ({| _deploy_context := deploy_context;
      _build_context := build_context;
      _stacks := stacks;
      _boto_config :=
        {| region_name :=
             match region deploy_context with
             | Some r => if String.eqb r "" then None else Some r
             | None => None
             end |};
      _physical_id_mapping := l |},
   <[l := ∅]> h).

(** The loop of [load_physical_id_mapping]: each summary the iteration yields
    is stored in the dict at [l]; when the iteration raises, so does the
    loop, with the store as it is by then. *)
Fixpoint store_summaries (l : loc) (rs : summaries) (h : heap) : heap * result unit :=
  match rs with
  | Exhausted => (h, Ok tt)
  | Failed e => (h, Raise e)
  | Summary k v rest =>
      store_summaries l rest (alter (fun m => <[k := v]> m) l h)
  end.

(** [SyncFlowFactory.load_physical_id_mapping]: the dict is cleared in place,
    then filled from the summaries of the deployed stack. *)
Definition load_physical_id_mapping (self : SyncFlowFactory) (cfn : cloudformation)
    (h : heap) : heap * result unit :=
  let l := _physical_id_mapping self in
  let h1 := alter (fun _ => ∅) l h in
  let resources := cfn (_boto_config self) (stack_name (_deploy_context self)) in
  store_summaries l resources h1.

(** [resource.get("Properties", dict()).get("PackageType", ZIP)]; a
    [Properties] that is not a dict has no [get]. *)
Definition get_package_type (resource : dict value) : result value :=
  match dict_get "Properties" resource with
  | None => Ok (VStr ZIP)
  | Some (VDict properties) =>
      match dict_get "PackageType" properties with
      | Some package_type => Ok package_type
      | None => Ok (VStr ZIP)
      end
  | Some _ => Raise AttributeError
  end.

Definition _create_lambda_flow (self : SyncFlowFactory) (resource_identifier : string)
    (resource : dict value) : result (option SyncFlow) :=
  match get_package_type resource with
  | Raise e => Raise e
  | Ok package_type =>
      if value_eq_str package_type ZIP then
        Ok (Some (ZipFunctionSyncFlow resource_identifier (_build_context self)
                    (_deploy_context self) (_physical_id_mapping self) (_stacks self)))
      else if value_eq_str package_type IMAGE then
        Ok (Some (ImageFunctionSyncFlow resource_identifier (_build_context self)
                    (_deploy_context self) (_physical_id_mapping self) (_stacks self)))
      else Ok None
  end.

(** The body of the three stubs is [pass]: they return [None]. *)
Definition _create_layer_flow (self : SyncFlowFactory) (resource_identifier : string)
    (resource : dict value) : result (option SyncFlow) :=
  Ok None.

Definition _create_rest_api_flow (self : SyncFlowFactory) (resource_identifier : string)
    (resource : dict value) : result (option SyncFlow) :=
  Ok None.

Definition _create_api_flow (self : SyncFlowFactory) (resource_identifier : string)
    (resource : dict value) : result (option SyncFlow) :=
  Ok None.

Abbreviation factory_function :=
  (SyncFlowFactory -> string -> dict value -> result (option SyncFlow)).

Definition FLOW_FACTORY_FUNCTIONS : gmap string factory_function :=
  dict_display [
    (LAMBDA_FUNCTION, _create_lambda_flow);
    (SERVERLESS_FUNCTION, _create_lambda_flow);
    (SERVERLESS_LAYER, _create_layer_flow);
    (LAMBDA_LAYER, _create_layer_flow);
    (SERVERLESS_API, _create_rest_api_flow);
    (APIGATEWAY_RESTAPI, _create_rest_api_flow);
    (SERVERLESS_HTTP_API, _create_api_flow);
    (APIGATEWAY_V2_API, _create_api_flow)
  ].

(** [FLOW_FACTORY_FUNCTIONS.get(resource_type, None)]: the keys are all
    [str], so a hashable value of another type finds nothing, and a list or a
    dict cannot be hashed. *)
Definition table_get (resource_type : value) : result (option factory_function) :=
  match resource_type with
  | VStr t => Ok (FLOW_FACTORY_FUNCTIONS !! t)
  | VList _ | VDict _ => Raise TypeError
  | _ => Ok None
  end.

(** [get_resource_by_id] is called without [explicit_nested]. An empty
    resource body is falsy, as is a missing, [None] or empty [Type]. *)
Definition create_sync_flow (self : SyncFlowFactory)
    (resource_identifier : ResourceIdentifier.t) : result (option SyncFlow) :=
  match get_resource_by_id (_stacks self) resource_identifier explicit_nested_default with
  | None => Ok None
  | Some [] => Ok None
  | Some resource =>
      match dict_get "Type" resource with
      | None => Ok None
      | Some resource_type =>
          if negb (truthy resource_type) then Ok None
          else
            match table_get resource_type with
            | Raise e => Raise e
            | Ok None => Ok None
            | Ok (Some factory_function) =>
                factory_function self (ResourceIdentifier.to_string resource_identifier)
                  resource
            end
      end
  end.

End Factory.

(** An identifier string is well formed unless its only [/] is its first
    character: such a string would name a resource under an empty stack
    path, which is how the resources of the root are named without the
    [/]. *)
Definition well_formed (s : string) : bool :=
  match s with
  | EmptyString => true
  | String c rest => negb (Ascii.eqb c sep && negb (contains_sep rest))
  end.

(** The packaging kind a function resource declares: the [PackageType] of
    its [Properties], when it has both. *)
Definition packaging_kind (resource : dict value) : option value :=
  match dict_get "Properties" resource with
  | Some (VDict properties) => dict_get "PackageType" properties
  | _ => None
  end.

(** The [Properties] of a resource, when it has any, is a record. *)
Definition properties_is_record (resource : dict value) : bool :=
  match dict_get "Properties" resource with
  | None | Some (VDict _) => true
  | Some _ => false
  end.

(** ** The stacks of the unit tests *)

Module TestGetResourceByID.

Definition root_stack : Stack.t string :=
  Stack.mk "" "" [("Function1", "Body1")].

Definition nested_stack : Stack.t string :=
  Stack.mk "" "NestedStack1" [("Function1", "Body2")].

Definition nested_nested_stack : Stack.t string :=
  Stack.mk "NestedStack1" "NestedNestedStack1" [("Function2", "Body3")].

Definition stacks : list (Stack.t string) :=
  [root_stack; nested_stack; nested_nested_stack].

End TestGetResourceByID.

Module TestGetResourcesByType.

Definition root_stack : Stack.t (dict value) :=
  Stack.mk "" "" [("Function1", [("Type", VStr "TypeA")])].

Definition nested_stack : Stack.t (dict value) :=
  Stack.mk "" "NestedStack1" [("Function1", [("Type", VStr "TypeA")])].

Definition nested_nested_stack : Stack.t (dict value) :=
  Stack.mk "NestedStack1" "NestedNestedStack1"
    [("Function2", [("Type", VStr "TypeB")])].

Definition stacks : list (Stack.t (dict value)) :=
  [root_stack; nested_stack; nested_nested_stack].

End TestGetResourcesByType.

(** ** A deployment for the examples *)

Module Deployment.

(** The names CloudFormation gives the two package types and the eight
    resource types; any other choice of distinct strings would do. *)
Definition package_types : PackageTypes :=
  {| ZIP := "Zip"; IMAGE := "Image" |}.

Definition resource_types : ResourceTypes :=
  {| LAMBDA_FUNCTION := "AWS::Lambda::Function";
     SERVERLESS_FUNCTION := "AWS::Serverless::Function";
     SERVERLESS_LAYER := "AWS::Serverless::LayerVersion";
     LAMBDA_LAYER := "AWS::Lambda::LayerVersion";
     SERVERLESS_API := "AWS::Serverless::Api";
     APIGATEWAY_RESTAPI := "AWS::ApiGateway::RestApi";
     SERVERLESS_HTTP_API := "AWS::Serverless::HttpApi";
     APIGATEWAY_V2_API := "AWS::ApiGatewayV2::Api" |}.

(** The resolver's default mode in the examples: implicit. *)
Definition resolver_default : ResolverDefault :=
  {| explicit_nested_default := false |}.

(** A function that does not say how it is packaged. *)
Definition plain_function : dict value :=
  [("Type", VStr "AWS::Lambda::Function");
   ("Properties", VDict [("Runtime", VStr "python3.8")])].

Definition zip_function : dict value :=
  [("Type", VStr "AWS::Serverless::Function");
   ("Properties", VDict [("PackageType", VStr "Zip")])].

Definition image_function : dict value :=
  [("Type", VStr "AWS::Lambda::Function");
   ("Properties", VDict [("PackageType", VStr "Image")])].

Definition odd_function : dict value :=
  [("Type", VStr "AWS::Lambda::Function");
   ("Properties", VDict [("PackageType", VStr "Jar")])].

Definition layer : dict value :=
  [("Type", VStr "AWS::Lambda::LayerVersion")].

Definition bucket : dict value :=
  [("Type", VStr "AWS::S3::Bucket")].

Definition untyped : dict value :=
  [("Properties", VDict [])].

Definition stacks : list (Stack.t (dict value)) :=
  [Stack.mk "" ""
     [("Function1", plain_function); ("Function2", zip_function);
      ("Layer1", layer); ("Bucket1", bucket); ("Untyped1", untyped)];
   Stack.mk "" "NestedStack1"
     [("Function3", image_function); ("Function4", odd_function)]].

Definition deploy_context : DeployContext :=
  {| region := Some "us-east-1"; stack_name := "app" |}.

(** A factory made in an empty store. *)
Definition factory : @SyncFlowFactory unit :=
  (__init__ tt deploy_context stacks ∅).1.

Definition heap0 : heap :=
  (@__init__ unit tt deploy_context stacks ∅).2.

(** The deployed stack at a first and at a later time, and a later fetch
    that is cut short after its first page. *)
Definition deployed_first : cloudformation :=
  fun _ _ => summaries_of [("Function1", "app-Function1-AAA")].

Definition deployed_later : cloudformation :=
  fun _ _ => summaries_of [("Function1", "app-Function1-BBB");
                           ("Function3", "app-Function3-CCC")].

Definition interrupted : cloudformation :=
  fun _ _ => Summary "Function1" "app-Function1-BBB" (Failed ClientError).

(** The store after the first load. *)
Definition heap1 : heap :=
  (load_physical_id_mapping factory deployed_first heap0).1.

(** The flow made for [Function1] after the first load. *)
Definition function1_flow : @SyncFlow unit :=
  ZipFunctionSyncFlow "Function1" tt deploy_context (_physical_id_mapping factory)
    stacks.

End Deployment.

(** ** A template with ill-formed resources *)

Module Malformed.

Definition list_typed : dict value :=
  [("Type", VList [VStr "AWS::Lambda::Function"])].

Definition empty_list_typed : dict value :=
  [("Type", VList [])].

Definition number_typed : dict value :=
  [("Type", VInt 1)].

Definition null_properties : dict value :=
  [("Type", VStr "AWS::Lambda::Function"); ("Properties", VNone)].

Definition stacks : list (Stack.t (dict value)) :=
  [Stack.mk "" ""
     [("ListTyped", list_typed); ("EmptyListTyped", empty_list_typed);
      ("NumberTyped", number_typed); ("NullProperties", null_properties)]].

Definition factory : @SyncFlowFactory unit :=
  (__init__ tt Deployment.deploy_context stacks ∅).1.

End Malformed.

(** * Properties *)

(** Membership in a list given by its elements, case by case. *)
Ltac each_member H :=
  repeat (apply elem_of_cons in H as [->|H]; [try reflexivity; try discriminate|]);
  try (by apply elem_of_nil in H).

(** ** Strings and identifiers *)

Lemma append_nil_l s : "" +:+ s = s.
Proof. reflexivity. Qed.

Lemma append_cons c s t : String c s +:+ t = String c (s +:+ t).
Proof. reflexivity. Qed.

Lemma eqb_sep_true c : Ascii.eqb c sep = true -> c = sep.
Proof. apply Ascii.eqb_eq. Qed.

Lemma rsplit_sep_none s : rsplit_sep s = None <-> contains_sep s = false.
Proof.
  induction s as [|c rest IH]; simpl; [done|].
  destruct (rsplit_sep rest) as [[before after]|].
  - split; [done|]. intros [_ Hrest]%orb_false_iff.
    apply IH in Hrest. discriminate.
  - destruct (Ascii.eqb c sep); simpl; [done|]. tauto.
Qed.

Lemma rsplit_sep_some s before after :
  rsplit_sep s = Some (before, after) ->
  s = before +:+ String sep after /\ contains_sep after = false.
Proof.
  revert before after.
  induction s as [|c rest IH]; simpl; intros before after Hs; [done|].
  destruct (rsplit_sep rest) as [[b a]|] eqn:Hrest.
  - inversion Hs; subst. destruct (IH b after eq_refl) as [-> Hafter].
    done.
  - destruct (Ascii.eqb c sep) eqn:Hc; [|done].
    inversion Hs; subst. apply eqb_sep_true in Hc as ->.
    split; [done|]. by apply rsplit_sep_none.
Qed.

Lemma join_sep_cons seg segs :
  segs <> [] -> join_sep (seg :: segs) = seg +:+ String sep (join_sep segs).
Proof. destruct segs; done. Qed.

(** The segments of a string, against its split at the last [/]. *)
Lemma segments_rsplit s :
  match rsplit_sep s with
  | Some (before, after) =>
      exists segs : list string,
        segs <> [] /\ segments s = (segs ++ [after])%list /\ join_sep segs = before
  | None => segments s = [s]
  end.
Proof.
  induction s as [|c rest IH]; simpl; [done|].
  destruct (rsplit_sep rest) as [[before after]|] eqn:Hrest.
  - destruct IH as (segs & Hne & Hsegs & Hjoin).
    destruct (Ascii.eqb c sep) eqn:Hc.
    + apply eqb_sep_true in Hc as ->.
      exists (EmptyString :: segs). rewrite Hsegs.
      split; [done|]. split; [done|]. by rewrite join_sep_cons, Hjoin.
    + destruct segs as [|seg segs']; [done|].
      rewrite Hsegs. simpl. exists (String c seg :: segs').
      split; [done|]. split; [done|].
      destruct segs' as [|seg' segs'']; simpl in *; by rewrite <- Hjoin.
  - destruct (Ascii.eqb c sep) eqn:Hc.
    + exists [EmptyString]. by rewrite IH.
    + by rewrite IH.
Qed.

Lemma last_snoc {A : Type} (l : list A) (x d : A) : List.last (l ++ [x])%list d = x.
Proof. induction l as [|y l IH]; [done|]. simpl. rewrite IH. by destruct l. Qed.

Lemma removelast_snoc {A : Type} (l : list A) (x : A) : removelast (l ++ [x])%list = l.
Proof.
  induction l as [|y l IH]; [done|]. simpl. rewrite IH. by destruct l.
Qed.

Lemma parse_parse_segments s :
  ResourceIdentifier.parse s = ResourceIdentifier.parse_segments s.
Proof.
  unfold ResourceIdentifier.parse, ResourceIdentifier.parse_segments.
  pose proof (segments_rsplit s) as H.
  destruct (rsplit_sep s) as [[before after]|].
  - destruct H as (segs & _ & -> & <-).
    by rewrite removelast_snoc, last_snoc.
  - by rewrite H.
Qed.

Lemma contains_sep_app_sep before after :
  contains_sep (before +:+ String sep after) = true.
Proof.
  induction before as [|c b IH]; [done|].
  rewrite append_cons. simpl. rewrite IH. apply orb_true_r.
Qed.

Lemma to_string_parse_iff s :
  ResourceIdentifier.to_string (ResourceIdentifier.parse s) = s
  <-> well_formed s = true.
Proof.
  unfold ResourceIdentifier.to_string, ResourceIdentifier.parse.
  destruct (rsplit_sep s) as [[before after]|] eqn:Hs; simpl.
  - apply rsplit_sep_some in Hs as [-> Hafter].
    destruct before as [|c before].
    + rewrite !append_nil_l. simpl. rewrite Hafter. simpl. split; [|done].
      intros H. apply (f_equal String.length) in H. simpl in H. lia.
    + simpl. rewrite !append_cons, append_nil_l. simpl.
      split; [|done]. intros _.
      by rewrite contains_sep_app_sep, andb_false_r.
  - rewrite !append_nil_l. split; [|done]. intros _.
    apply rsplit_sep_none in Hs. destruct s as [|c rest]; simpl in *; [done|].
    apply orb_false_iff in Hs as [-> _]. done.
Qed.

(** C9. Parsing an identifier string is total and splits it on its last
    [/]: the last [/]-delimited segment is the logical id, the preceding
    segments joined with [/] are the stack path, and the empty string has
    both fields empty. Printing the parsed identifier of a well-formed string
    gives the string back. *)
Theorem parse_to_string_roundtrip (s : string) :
  well_formed s = true ->
  ResourceIdentifier.parse s = ResourceIdentifier.parse_segments s
  /\ contains_sep (ResourceIdentifier.logical_id (ResourceIdentifier.parse s)) = false
  /\ (if contains_sep s
      then s = ResourceIdentifier.stack_path (ResourceIdentifier.parse s)
               +:+ String sep (ResourceIdentifier.logical_id (ResourceIdentifier.parse s))
      else ResourceIdentifier.parse s = ResourceIdentifier.mk "" s)
  /\ ResourceIdentifier.parse "" = ResourceIdentifier.mk "" ""
  /\ ResourceIdentifier.to_string (ResourceIdentifier.parse s) = s.
Proof.
  intros Hwf. split; [apply parse_parse_segments|].
  split; [|split; [|split; [done|by apply to_string_parse_iff]]].
  - unfold ResourceIdentifier.parse.
    destruct (rsplit_sep s) as [[before after]|] eqn:Hs; simpl.
    + by apply rsplit_sep_some in Hs as [_ ?].
    + by apply rsplit_sep_none.
  - unfold ResourceIdentifier.parse.
    destruct (rsplit_sep s) as [[before after]|] eqn:Hs; simpl.
    + destruct (contains_sep s) eqn:Hc.
      * by apply rsplit_sep_some in Hs as [? _].
      * apply rsplit_sep_none in Hc. congruence.
    + apply rsplit_sep_none in Hs. by rewrite Hs.
Qed.

Lemma parse_to_string_roundtrip_witness :
  well_formed "NestedStack1/NestedNestedStack2/Function1" = true
  /\ ResourceIdentifier.to_string
       (ResourceIdentifier.parse "NestedStack1/NestedNestedStack2/Function1")
     = "NestedStack1/NestedNestedStack2/Function1".
Proof.
  split; [reflexivity|].
  apply (parse_to_string_roundtrip "NestedStack1/NestedNestedStack2/Function1").
  reflexivity.
Defined.

(** The cases of [TestResourceIdentifier]. *)

Example test_parser :
  ResourceIdentifier.parse "Function1" = ResourceIdentifier.mk "" "Function1"
  /\ ResourceIdentifier.parse "NestedStack1/Function1"
     = ResourceIdentifier.mk "NestedStack1" "Function1"
  /\ ResourceIdentifier.parse "NestedStack1/NestedNestedStack2/Function1"
     = ResourceIdentifier.mk "NestedStack1/NestedNestedStack2" "Function1"
  /\ ResourceIdentifier.parse "" = ResourceIdentifier.mk "" "".
Proof. repeat split. Qed.

Example test_str :
  Forall (fun s => ResourceIdentifier.to_string (ResourceIdentifier.parse s) = s)
    ["Function1"; "NestedStack1/Function1";
     "NestedStack1/NestedNestedStack2/Function1"; ""].
Proof. repeat constructor. Qed.

Example test_equal :
  ResourceIdentifier.eqb (ResourceIdentifier.parse "NestedStack1/Function1")
    (ResourceIdentifier.parse "NestedStack1/Function1") = true
  /\ ResourceIdentifier.eqb
       (ResourceIdentifier.parse "NestedStack1/NestedNestedStack2/Function1")
       (ResourceIdentifier.parse "NestedStack1/NestedNestedStack2/Function2")
     = false
  /\ ResourceIdentifier.eqb
       (ResourceIdentifier.parse "NestedStack1/NestedNestedStack3/Function1")
       (ResourceIdentifier.parse "NestedStack1/NestedNestedStack2/Function1")
     = false
  /\ ResourceIdentifier.eqb (ResourceIdentifier.parse "")
       (ResourceIdentifier.parse "") = true.
Proof. repeat split. Qed.

(** A string whose only [/] comes first does not print back. *)
Example leading_sep_not_restored :
  ResourceIdentifier.parse "/Function1" = ResourceIdentifier.mk "" "Function1"
  /\ ResourceIdentifier.to_string (ResourceIdentifier.parse "/Function1")
     = "Function1".
Proof. split; reflexivity. Qed.

Lemma identifier_eqb_eq (a b : ResourceIdentifier.t) :
  ResourceIdentifier.eqb a b = true <-> a = b.
Proof.
  destruct a as [pa la], b as [pb lb]. unfold ResourceIdentifier.eqb. simpl.
  rewrite andb_true_iff, !String.eqb_eq. split.
  - by intros [-> ->].
  - by intros [= -> ->].
Qed.

(** Equal identifiers hash alike. *)
Lemma identifier_hash_eq {H : Type} (h : string * string -> H)
    (a b : ResourceIdentifier.t) :
  ResourceIdentifier.eqb a b = true ->
  ResourceIdentifier.hash h a = ResourceIdentifier.hash h b.
Proof. by intros ->%identifier_eqb_eq. Qed.

(** A logical id without [/] under a stack path parses back to the two. *)
Lemma rsplit_sep_app before after :
  contains_sep after = false ->
  rsplit_sep (before +:+ String sep after) = Some (before, after).
Proof.
  intros Hafter. apply rsplit_sep_none in Hafter.
  induction before as [|c b IH].
  - rewrite append_nil_l. simpl. by rewrite Hafter.
  - rewrite append_cons. simpl. by rewrite IH.
Qed.

Lemma parse_path_join path logical_id :
  contains_sep logical_id = false ->
  ResourceIdentifier.parse (path_join path logical_id)
  = ResourceIdentifier.mk path logical_id.
Proof.
  intros Hid. unfold ResourceIdentifier.parse.
  destruct path as [|c p].
  - change (path_join "" logical_id) with logical_id.
    apply rsplit_sep_none in Hid. by rewrite Hid.
  - change (path_join (String c p) logical_id)
      with (String c p +:+ String sep logical_id).
    by rewrite (rsplit_sep_app (String c p) logical_id Hid).
Qed.

(** ** The resolver *)

Section Resolver.

Context {R : Type}.
Implicit Types (stacks : list (Stack.t R)) (stack : Stack.t R).
Implicit Types (identifier : ResourceIdentifier.t).

Lemma find_stack_some path stacks stack :
  find_stack path stacks = Some stack ->
  stack ∈ stacks /\ Stack.stack_path stack = path.
Proof.
  induction stacks as [|s rest IH]; simpl; [done|].
  destruct (String.eqb (Stack.stack_path s) path) eqn:Hs.
  - intros [= ->]. split; [left|]. by apply String.eqb_eq.
  - intros [Hin Hp]%IH. split; [by right|done].
Qed.

Lemma find_stack_none path stacks :
  find_stack path stacks = None <->
  forall stack, stack ∈ stacks -> Stack.stack_path stack <> path.
Proof.
  induction stacks as [|s rest IH]; simpl.
  - split; [|done]. intros _ stack Hin. by apply elem_of_nil in Hin.
  - destruct (String.eqb (Stack.stack_path s) path) eqn:Hs.
    + split; [done|]. intros H. apply String.eqb_eq in Hs.
      exfalso. apply (H s); [left|done].
    + apply String.eqb_neq in Hs. rewrite IH. split.
      * intros H stack [->|Hin]%elem_of_cons; [done|by apply H].
      * intros H stack Hin. apply H. by right.
Qed.

Lemma find_stack_unique path stacks stack :
  stack ∈ stacks ->
  Stack.stack_path stack = path ->
  (forall other, other ∈ stacks -> Stack.stack_path other = path -> other = stack) ->
  find_stack path stacks = Some stack.
Proof.
  intros Hin Hpath Huniq.
  destruct (find_stack path stacks) as [found|] eqn:Hfind.
  - apply find_stack_some in Hfind as [Hfin Hfp]. f_equal. by apply Huniq.
  - exfalso. by apply (proj1 (find_stack_none path stacks) Hfind stack).
Qed.

Lemma scan_stacks_none logical_id stacks :
  scan_stacks logical_id stacks = None <->
  forall stack, stack ∈ stacks -> dict_get logical_id (Stack.resources stack) = None.
Proof.
  induction stacks as [|s rest IH]; simpl.
  - split; [|done]. intros _ stack Hin. by apply elem_of_nil in Hin.
  - destruct (dict_get logical_id (Stack.resources s)) as [r|] eqn:Hs.
    + split; [done|]. intros H. specialize (H s). rewrite Hs in H.
      apply H. left.
    + rewrite IH. split.
      * intros H stack [->|Hin]%elem_of_cons; [done|by apply H].
      * intros H stack Hin. apply H. by right.
Qed.

Lemma scan_stacks_first logical_id pre stack post resource :
  (forall earlier, earlier ∈ pre ->
     dict_get logical_id (Stack.resources earlier) = None) ->
  dict_get logical_id (Stack.resources stack) = Some resource ->
  scan_stacks logical_id (pre ++ stack :: post)%list = Some resource.
Proof.
  intros Hpre Hstack. induction pre as [|s pre IH]; simpl.
  - by rewrite Hstack.
  - rewrite (Hpre s) by left. apply IH. intros earlier Hin. apply Hpre. by right.
Qed.

Lemma get_resource_by_id_absent stacks identifier explicit_nested :
  (forall stack, stack ∈ stacks ->
     dict_get (ResourceIdentifier.logical_id identifier) (Stack.resources stack) = None) ->
  get_resource_by_id stacks identifier explicit_nested = None.
Proof.
  intros Habsent. unfold get_resource_by_id.
  destruct (_ || _).
  - destruct (find_stack _ stacks) as [stack|] eqn:Hfind; [|done].
    apply find_stack_some in Hfind as [Hin _]. by apply Habsent.
  - by apply scan_stacks_none.
Qed.

Lemma resolved_in_stack_with_path stacks identifier resource :
  get_resource_by_id stacks identifier true = Some resource ->
  exists stack,
    stack ∈ stacks
    /\ Stack.stack_path stack = ResourceIdentifier.stack_path identifier
    /\ dict_get (ResourceIdentifier.logical_id identifier) (Stack.resources stack)
       = Some resource.
Proof.
  unfold get_resource_by_id. simpl.
  destruct (find_stack _ stacks) as [stack|] eqn:Hfind; [|done].
  apply find_stack_some in Hfind as [Hin Hpath]. eauto.
Qed.

(** C5. In implicit mode an identifier with a stack path is resolved as in
    explicit mode; one without is resolved by a scan of the stacks in list
    order, to the resource of the first stack that has its logical id; an
    identifier whose logical id no stack has is resolved to the not-found
    sentinel. *)
Theorem get_resource_by_id_implicit stacks identifier :
  (ResourceIdentifier.stack_path identifier <> "" ->
   get_resource_by_id stacks identifier false
   = get_resource_by_id stacks identifier true)
  /\ (ResourceIdentifier.stack_path identifier = "" ->
      forall pre stack post resource,
        stacks = (pre ++ stack :: post)%list ->
        (forall earlier, earlier ∈ pre ->
           dict_get (ResourceIdentifier.logical_id identifier)
             (Stack.resources earlier) = None) ->
        dict_get (ResourceIdentifier.logical_id identifier) (Stack.resources stack)
        = Some resource ->
        get_resource_by_id stacks identifier false = Some resource)
  /\ ((forall stack, stack ∈ stacks ->
         dict_get (ResourceIdentifier.logical_id identifier) (Stack.resources stack)
         = None) ->
      get_resource_by_id stacks identifier false = None).
Proof.
  split; [|split].
  - intros Hpath%String.eqb_neq. unfold get_resource_by_id. by rewrite Hpath.
  - intros Hpath pre stack post resource -> Hpre Hstack.
    unfold get_resource_by_id. rewrite Hpath. simpl.
    by apply scan_stacks_first.
  - apply get_resource_by_id_absent.
Qed.

(** C6. In explicit mode an identifier is resolved in the one stack whose
    full path is its stack path, to what that stack has under its logical id
    or to not-found; it is not found when no stack has that path; whatever is
    found comes from a stack with that path, never from another stack that
    has the logical id. *)
Theorem get_resource_by_id_explicit stacks identifier :
  (forall stack,
     stack ∈ stacks ->
     Stack.stack_path stack = ResourceIdentifier.stack_path identifier ->
     (forall other, other ∈ stacks ->
        Stack.stack_path other = ResourceIdentifier.stack_path identifier ->
        other = stack) ->
     get_resource_by_id stacks identifier true
     = dict_get (ResourceIdentifier.logical_id identifier) (Stack.resources stack))
  /\ ((forall stack, stack ∈ stacks ->
         Stack.stack_path stack <> ResourceIdentifier.stack_path identifier) ->
      get_resource_by_id stacks identifier true = None)
  /\ (forall resource,
        get_resource_by_id stacks identifier true = Some resource ->
        exists stack,
          stack ∈ stacks
          /\ Stack.stack_path stack = ResourceIdentifier.stack_path identifier
          /\ dict_get (ResourceIdentifier.logical_id identifier) (Stack.resources stack)
             = Some resource).
Proof.
  unfold get_resource_by_id. simpl. split; [|split].
  - intros stack Hin Hpath Huniq.
    by rewrite (find_stack_unique _ _ _ Hin Hpath Huniq).
  - intros Hnone%find_stack_none. by rewrite Hnone.
  - apply resolved_in_stack_with_path.
Qed.

End Resolver.

(** The cases of [TestGetResourceByID]. *)

Example test_get_resource_by_id_explicit :
  get_resource_by_id TestGetResourceByID.stacks
    (ResourceIdentifier.mk "" "Function1") true = Some "Body1"
  /\ get_resource_by_id TestGetResourceByID.stacks
       (ResourceIdentifier.mk "NestedStack1" "Function1") true = Some "Body2"
  /\ get_resource_by_id TestGetResourceByID.stacks
       (ResourceIdentifier.mk "NestedStack1/NestedNestedStack1" "Function2") true
     = Some "Body3".
Proof. repeat split. Qed.

Example test_get_resource_by_id_implicit :
  get_resource_by_id TestGetResourceByID.stacks
    (ResourceIdentifier.mk "" "Function1") false = Some "Body1"
  /\ get_resource_by_id TestGetResourceByID.stacks
       (ResourceIdentifier.mk "" "Function2") false = Some "Body3"
  /\ get_resource_by_id TestGetResourceByID.stacks
       (ResourceIdentifier.mk "NestedStack1" "Function1") false = Some "Body2"
  /\ get_resource_by_id TestGetResourceByID.stacks
       (ResourceIdentifier.mk "" "Function3") false = None.
Proof. repeat split. Qed.

(** Explicit and implicit mode part on an identifier without a stack path
    whose logical id only a nested stack has. *)
Example explicit_does_not_search :
  get_resource_by_id TestGetResourceByID.stacks
    (ResourceIdentifier.mk "" "Function2") true = None.
Proof. reflexivity. Qed.

Lemma get_resource_by_id_implicit_witness :
  get_resource_by_id TestGetResourceByID.stacks
    (ResourceIdentifier.mk "NestedStack1" "Function1") false
  = get_resource_by_id TestGetResourceByID.stacks
      (ResourceIdentifier.mk "NestedStack1" "Function1") true
  /\ get_resource_by_id TestGetResourceByID.stacks
       (ResourceIdentifier.mk "" "Function2") false
     = Some "Body3"
  /\ get_resource_by_id TestGetResourceByID.stacks
       (ResourceIdentifier.mk "" "Function3") false
     = None.
Proof.
  split; [|split].
  - apply (get_resource_by_id_implicit TestGetResourceByID.stacks
             (ResourceIdentifier.mk "NestedStack1" "Function1")).
    discriminate.
  - apply (proj1 (proj2 (get_resource_by_id_implicit TestGetResourceByID.stacks
                           (ResourceIdentifier.mk "" "Function2")))
             eq_refl
             [TestGetResourceByID.root_stack; TestGetResourceByID.nested_stack]
             TestGetResourceByID.nested_nested_stack []).
    + reflexivity.
    + intros earlier H. each_member H.
    + reflexivity.
  - apply (proj2 (proj2 (get_resource_by_id_implicit TestGetResourceByID.stacks
                           (ResourceIdentifier.mk "" "Function3")))).
    intros stack H. unfold TestGetResourceByID.stacks in H. each_member H.
Defined.

Lemma get_resource_by_id_explicit_witness :
  get_resource_by_id TestGetResourceByID.stacks
    (ResourceIdentifier.mk "NestedStack1" "Function1") true
  = Some "Body2"
  /\ get_resource_by_id TestGetResourceByID.stacks
       (ResourceIdentifier.mk "NestedStack2" "Function1") true
     = None
  /\ exists stack,
       stack ∈ TestGetResourceByID.stacks
       /\ Stack.stack_path stack = "NestedStack1"
       /\ dict_get "Function1" (Stack.resources stack) = Some "Body2".
Proof.
  split; [|split].
  - apply (proj1 (get_resource_by_id_explicit TestGetResourceByID.stacks
                    (ResourceIdentifier.mk "NestedStack1" "Function1"))
             TestGetResourceByID.nested_stack).
    + unfold TestGetResourceByID.stacks. set_solver.
    + reflexivity.
    + intros other H. unfold TestGetResourceByID.stacks in H. each_member H.
  - apply (proj1 (proj2 (get_resource_by_id_explicit TestGetResourceByID.stacks
                           (ResourceIdentifier.mk "NestedStack2" "Function1")))).
    intros stack H. unfold TestGetResourceByID.stacks in H. each_member H.
  - apply (proj2 (proj2 (get_resource_by_id_explicit TestGetResourceByID.stacks
                           (ResourceIdentifier.mk "NestedStack1" "Function1")))
             "Body2").
    reflexivity.
Defined.

(** ** The scan by type *)

Lemma scan_resources_acc path resource_type items acc :
  scan_resources path resource_type items acc
  = (acc ++ map (fun item => ResourceIdentifier.parse (path_join path (fst item)))
              (List.filter (fun item => has_type resource_type (snd item)) items))%list.
Proof.
  revert acc. induction items as [|[logical_id resource] rest IH]; intros acc; simpl.
  - by rewrite app_nil_r.
  - rewrite IH. destruct (has_type resource_type resource); simpl; [|done].
    by rewrite <- app_assoc.
Qed.

Lemma scan_types_acc resource_type stacks acc :
  scan_types resource_type stacks acc
  = (acc ++ matching_identifiers resource_type stacks)%list.
Proof.
  revert acc. induction stacks as [|stack rest IH]; intros acc; simpl.
  - by rewrite app_nil_r.
  - by rewrite IH, scan_resources_acc, <- app_assoc.
Qed.

Lemma matching_identifiers_elem resource_type stacks identifier :
  identifier ∈ matching_identifiers resource_type stacks <->
  exists stack logical_id resource,
    stack ∈ stacks
    /\ (logical_id, resource) ∈ Stack.resources stack
    /\ has_type resource_type resource = true
    /\ identifier
       = ResourceIdentifier.parse (path_join (Stack.stack_path stack) logical_id).
Proof.
  unfold matching_identifiers.
  rewrite list_elem_of_In, in_flat_map. split.
  - intros (stack & Hin & Hid).
    apply in_map_iff in Hid as ([logical_id resource] & <- & Hitem).
    apply filter_In in Hitem as [Hitem Htype].
    exists stack, logical_id, resource.
    by rewrite !list_elem_of_In.
  - intros (stack & logical_id & resource & Hin & Hitem & Htype & ->).
    exists stack. rewrite <- list_elem_of_In. split; [done|].
    apply in_map_iff. exists (logical_id, resource). split; [done|].
    apply filter_In. by rewrite <- list_elem_of_In.
Qed.

(** C7. The scan by type returns the identifiers of the resources whose
    [Type] is the given type string, and no others, each parsed from the
    owning stack's full path joined with the resource's logical id, stack by
    stack in list order and within a stack in the order of its resources; it
    returns the empty list when no resource has that type. *)
Theorem get_resources_by_type_ordered (stacks : list (Stack.t (dict value)))
    (resource_type : string) :
  get_resources_by_type stacks resource_type
  = flat_map
      (fun stack =>
         map (fun item =>
                ResourceIdentifier.parse
                  (path_join (Stack.stack_path stack) (fst item)))
             (List.filter (fun item => has_type resource_type (snd item))
                          (Stack.resources stack)))
      stacks
  /\ (forall identifier,
        identifier ∈ get_resources_by_type stacks resource_type <->
        exists stack logical_id resource,
          stack ∈ stacks
          /\ (logical_id, resource) ∈ Stack.resources stack
          /\ dict_get "Type" resource = Some (VStr resource_type)
          /\ identifier
             = ResourceIdentifier.parse
                 (path_join (Stack.stack_path stack) logical_id))
  /\ ((forall stack logical_id resource,
         stack ∈ stacks ->
         (logical_id, resource) ∈ Stack.resources stack ->
         dict_get "Type" resource <> Some (VStr resource_type)) ->
      get_resources_by_type stacks resource_type = []).
Proof.
  assert (Htype : forall resource,
             has_type resource_type resource = true
             <-> dict_get "Type" resource = Some (VStr resource_type)).
  { intros resource. unfold has_type.
    destruct (dict_get "Type" resource) as [[| | |t| |]|]; simpl; try done.
    rewrite String.eqb_eq. split; congruence. }
  assert (Heq : get_resources_by_type stacks resource_type
                = matching_identifiers resource_type stacks).
  { unfold get_resources_by_type. by rewrite scan_types_acc. }
  split; [exact Heq|]. split.
  - intros identifier. rewrite Heq, matching_identifiers_elem.
    by setoid_rewrite Htype.
  - intros Hnone. rewrite Heq.
    destruct (matching_identifiers resource_type stacks) as [|identifier l] eqn:Hm;
      [done|].
    assert (Hin : identifier ∈ matching_identifiers resource_type stacks)
      by (rewrite Hm; left).
    apply matching_identifiers_elem in Hin
      as (stack & logical_id & resource & Hs & Hr & Ht%Htype & _).
    by destruct (Hnone stack logical_id resource).
Qed.

Example test_get_resources_by_type_multiple_nested :
  get_resources_by_type TestGetResourcesByType.stacks "TypeA"
  = [ResourceIdentifier.parse "Function1";
     ResourceIdentifier.parse "NestedStack1/Function1"].
Proof. reflexivity. Qed.

Example test_get_resources_by_type_single_nested :
  get_resources_by_type TestGetResourcesByType.stacks "TypeB"
  = [ResourceIdentifier.parse "NestedStack1/NestedNestedStack1/Function2"].
Proof. reflexivity. Qed.

Lemma get_resources_by_type_ordered_witness :
  get_resources_by_type TestGetResourcesByType.stacks "TypeC" = [].
Proof.
  apply (proj2 (proj2 (get_resources_by_type_ordered
                         TestGetResourcesByType.stacks "TypeC"))).
  intros stack logical_id resource Hs Hr.
  unfold TestGetResourcesByType.stacks in Hs.
  repeat (apply elem_of_cons in Hs as [->|Hs];
          [simpl in Hr; apply list_elem_of_singleton in Hr as [= -> ->];
           simpl; discriminate|]).
  by apply elem_of_nil in Hs.
Defined.

(** ** Loading the physical-id mapping *)

Lemma yielded_summaries_of l : yielded (summaries_of l) = l.
Proof. induction l as [|[k v] l IH]; simpl; [done|]. by rewrite IH. Qed.

Lemma outcome_summaries_of l : outcome (summaries_of l) = Ok tt.
Proof. induction l as [|[k v] l IH]; simpl; done. Qed.

Lemma store_summaries_spec l rs (h : heap) m :
  h !! l = Some m ->
  (store_summaries l rs h).1 !! l = Some (assign_all (yielded rs) m)
  /\ (forall l', l' <> l -> (store_summaries l rs h).1 !! l' = h !! l')
  /\ (store_summaries l rs h).2 = outcome rs.
Proof.
  revert h m. induction rs as [|e|k v rest IH]; intros h m Hm; simpl; [done..|].
  destruct (IH (alter (fun m => <[k:=v]> m) l h) (<[k:=v]> m)) as (Hl & Hother & Hres).
  { by rewrite lookup_alter_eq, Hm. }
  split; [done|]. split; [|done].
  intros l' Hl'. rewrite Hother by done. by apply lookup_alter_ne.
Qed.

Section FactoryProperties.

Context {BuildContext : Type}.
Context `{PT : PackageTypes} `{RT : ResourceTypes} `{RD : ResolverDefault}.
Implicit Types (self : @SyncFlowFactory BuildContext) (flow : @SyncFlow BuildContext).
Implicit Types (h : heap) (cfn : cloudformation) (resource : dict value).

Lemma load_physical_id_mapping_spec self cfn h m :
  h !! _physical_id_mapping self = Some m ->
  (load_physical_id_mapping self cfn h).1 !! _physical_id_mapping self
  = Some (assign_all
            (yielded (cfn (_boto_config self) (stack_name (_deploy_context self)))) ∅)
  /\ (forall l', l' <> _physical_id_mapping self ->
        (load_physical_id_mapping self cfn h).1 !! l' = h !! l')
  /\ (load_physical_id_mapping self cfn h).2
     = outcome (cfn (_boto_config self) (stack_name (_deploy_context self))).
Proof.
  intros Hm. unfold load_physical_id_mapping.
  set (l := _physical_id_mapping self) in *.
  set (rs := cfn _ _).
  destruct (store_summaries_spec l rs (alter (fun _ => ∅) l h) ∅)
    as (Hl & Hother & Hres).
  { by rewrite lookup_alter_eq, Hm. }
  split; [done|]. split; [|done].
  intros l' Hl'. rewrite Hother by done. by apply lookup_alter_ne.
Qed.

(** C4, as the code has it. A load first empties the mapping and then stores
    each entry as the fetch yields it: afterwards the mapping holds the
    entries yielded until the fetch ended or failed and nothing of what it
    held before; the load raises exactly when the fetch does. When the fetch
    succeeds with a snapshot, the mapping is that snapshot. *)
Theorem load_physical_id_mapping_keeps_fetched_entries self cfn h m :
  h !! _physical_id_mapping self = Some m ->
  (load_physical_id_mapping self cfn h).1 !! _physical_id_mapping self
  = Some (assign_all
            (yielded (cfn (_boto_config self) (stack_name (_deploy_context self)))) ∅)
  /\ (load_physical_id_mapping self cfn h).2
     = outcome (cfn (_boto_config self) (stack_name (_deploy_context self)))
  /\ (forall snapshot,
        cfn (_boto_config self) (stack_name (_deploy_context self))
        = summaries_of snapshot ->
        (load_physical_id_mapping self cfn h).1 !! _physical_id_mapping self
        = Some (assign_all snapshot ∅)
        /\ (load_physical_id_mapping self cfn h).2 = Ok tt).
Proof.
  intros Hm.
  destruct (load_physical_id_mapping_spec self cfn h m Hm) as (Hl & _ & Hres).
  split; [done|]. split; [done|].
  intros snapshot Hrs. rewrite Hl, Hres, Hrs.
  by rewrite yielded_summaries_of, outcome_summaries_of.
Qed.

End FactoryProperties.

(** C4, a fetch that fails on its second page. The load raises, and the
    mapping is neither what the first load left, nor empty, nor what the
    deployed stack has: it holds the first page alone. *)
Lemma load_physical_id_mapping_partial :
  let l := _physical_id_mapping Deployment.factory in
  let h2 := (load_physical_id_mapping Deployment.factory Deployment.interrupted
               Deployment.heap1).1 in
  (load_physical_id_mapping Deployment.factory Deployment.interrupted
     Deployment.heap1).2 = Raise ClientError
  /\ Deployment.heap1 !! l = Some {[ "Function1" := "app-Function1-AAA" ]}
  /\ h2 !! l = Some {[ "Function1" := "app-Function1-BBB" ]}
  /\ h2 !! l <> Deployment.heap1 !! l
  /\ h2 !! l <> Some ∅
  /\ h2 !! l <> Some (assign_all [("Function1", "app-Function1-BBB");
                                  ("Function3", "app-Function3-CCC")] ∅).
Proof.
  vm_compute. repeat split; discriminate.
Qed.

Lemma load_physical_id_mapping_keeps_fetched_entries_witness :
  (load_physical_id_mapping Deployment.factory Deployment.deployed_later
     Deployment.heap1).1 !! _physical_id_mapping Deployment.factory
  = Some (assign_all [("Function1", "app-Function1-BBB");
                      ("Function3", "app-Function3-CCC")] ∅)
  /\ (load_physical_id_mapping Deployment.factory Deployment.deployed_later
        Deployment.heap1).2 = Ok tt.
Proof.
  assert (H : Deployment.heap1 !! _physical_id_mapping Deployment.factory
              = Some {[ "Function1" := "app-Function1-AAA" ]})
    by (vm_compute; reflexivity).
  apply (proj2 (proj2 (load_physical_id_mapping_keeps_fetched_entries
                         Deployment.factory Deployment.deployed_later
                         Deployment.heap1 _ H))).
  reflexivity.
Defined.

(** ** Dispatch *)

Section Dispatch.

Context {BuildContext : Type}.
Context `{PT : PackageTypes} `{RT : ResourceTypes} `{RD : ResolverDefault}.
Implicit Types (self : @SyncFlowFactory BuildContext) (flow : @SyncFlow BuildContext).
Implicit Types (h : heap) (cfn : cloudformation) (resource : dict value).
Implicit Types (identifier : ResourceIdentifier.t).

(** The table holds the four constructors and nothing else. *)
Lemma table_functions (t : string) fn :
  FLOW_FACTORY_FUNCTIONS (BuildContext := BuildContext) !! t = Some fn ->
  fn = _create_lambda_flow \/ fn = _create_layer_flow
  \/ fn = _create_rest_api_flow \/ fn = _create_api_flow.
Proof.
  unfold FLOW_FACTORY_FUNCTIONS, dict_display. simpl.
  rewrite !lookup_insert, lookup_empty.
  repeat case_decide; intros [= <-]; auto.
Qed.

(** Under a layer or API key the table holds a stub, whatever the keys of
    the function entries are: the stubs are entered last. *)
Lemma table_stub (t : string) :
  t ∈ [SERVERLESS_LAYER; LAMBDA_LAYER; SERVERLESS_API; APIGATEWAY_RESTAPI;
       SERVERLESS_HTTP_API; APIGATEWAY_V2_API] ->
  exists fn,
    FLOW_FACTORY_FUNCTIONS (BuildContext := BuildContext) !! t = Some fn
    /\ (fn = _create_layer_flow \/ fn = _create_rest_api_flow
        \/ fn = _create_api_flow).
Proof.
  unfold FLOW_FACTORY_FUNCTIONS, dict_display. simpl.
  intros Ht. rewrite !lookup_insert.
  repeat (apply elem_of_cons in Ht as [->|Ht]);
    [..|by apply elem_of_nil in Ht];
    repeat (case_decide; [by eauto 6|try done]).
Qed.

Lemma create_lambda_flow_ref self rid resource flow :
  _create_lambda_flow self rid resource = Ok (Some flow) ->
  flow_mapping_ref flow = _physical_id_mapping self.
Proof.
  unfold _create_lambda_flow.
  destruct (get_package_type resource) as [package_type|e]; [|done].
  destruct (value_eq_str package_type ZIP); [by intros [= <-]|].
  destruct (value_eq_str package_type IMAGE); [by intros [= <-]|done].
Qed.

(** A flow comes out of [create_sync_flow] only through [_create_lambda_flow],
    on the resource the resolver found. *)
Lemma create_sync_flow_some self identifier flow :
  create_sync_flow self identifier = Ok (Some flow) ->
  exists resource,
    get_resource_by_id (_stacks self) identifier explicit_nested_default
    = Some resource
    /\ _create_lambda_flow self (ResourceIdentifier.to_string identifier) resource
       = Ok (Some flow).
Proof.
  unfold create_sync_flow.
  destruct (get_resource_by_id _ _ _) as [[|item resource]|]; [done| |done].
  destruct (dict_get "Type" (item :: resource)) as [resource_type|]; [|done].
  destruct (negb (truthy resource_type)); [done|].
  destruct resource_type as [| | |t| |]; simpl; try done.
  destruct (FLOW_FACTORY_FUNCTIONS !! t) as [fn|] eqn:Hfn; [|done].
  apply table_functions in Hfn as [-> | [-> | [-> | ->]]]; try done.
  eauto.
Qed.

(** C2, as the code has it. For a function resource whose [Properties], if
    any, is a record: a packaging kind that is missing or is [ZIP] makes a zip
    flow; the kind [IMAGE] makes an image flow; any other kind makes no flow,
    and nothing is raised. *)
Theorem create_lambda_flow_by_packaging_kind self rid resource :
  properties_is_record resource = true ->
  (packaging_kind resource = None \/ packaging_kind resource = Some (VStr ZIP) ->
   _create_lambda_flow self rid resource
   = Ok (Some (ZipFunctionSyncFlow rid (_build_context self) (_deploy_context self)
                 (_physical_id_mapping self) (_stacks self))))
  /\ (ZIP <> IMAGE ->
      packaging_kind resource = Some (VStr IMAGE) ->
      _create_lambda_flow self rid resource
      = Ok (Some (ImageFunctionSyncFlow rid (_build_context self)
                    (_deploy_context self) (_physical_id_mapping self)
                    (_stacks self))))
  /\ (forall kind,
        packaging_kind resource = Some kind ->
        kind <> VStr ZIP -> kind <> VStr IMAGE ->
        _create_lambda_flow self rid resource = Ok None).
Proof.
  unfold properties_is_record, packaging_kind, _create_lambda_flow, get_package_type.
  intros Hrecord.
  destruct (dict_get "Properties" resource) as [[| | | | |properties]|];
    try discriminate Hrecord.
  - destruct (dict_get "PackageType" properties) as [declared|].
    + split; [|split].
      * intros [[=]|[= ->]]. simpl. by rewrite String.eqb_refl.
      * intros Hne [= ->]. simpl. rewrite String.eqb_refl.
        apply String.eqb_neq in Hne. rewrite String.eqb_sym in Hne.
        by rewrite Hne.
      * intros kind [= ->] Hzip Himage.
        destruct kind as [| | |k| |]; simpl; try done.
        destruct (String.eqb k ZIP) eqn:Hk.
        { apply String.eqb_eq in Hk. congruence. }
        destruct (String.eqb k IMAGE) eqn:Hk'; [|done].
        apply String.eqb_eq in Hk'. congruence.
    + split; [|split]; [|done..].
      intros _. simpl. by rewrite String.eqb_refl.
  - split; [|split]; [|done..].
    intros _. simpl. by rewrite String.eqb_refl.
Qed.

(** C3, as the code has it. A flow made by [create_sync_flow] is given the
    factory's own mapping object: in every store it sees what the factory's
    mapping holds there, so after a later load it sees the entries that load
    fetched, not the ones it was made with. *)
Theorem flow_shares_physical_id_mapping self identifier flow cfn h m :
  create_sync_flow self identifier = Ok (Some flow) ->
  h !! _physical_id_mapping self = Some m ->
  flow_mapping_ref flow = _physical_id_mapping self
  /\ flow_mapping flow h = Some m
  /\ flow_mapping flow (load_physical_id_mapping self cfn h).1
     = Some (assign_all
               (yielded (cfn (_boto_config self) (stack_name (_deploy_context self))))
               ∅).
Proof.
  intros (resource & _ & Hflow)%create_sync_flow_some Hm.
  apply create_lambda_flow_ref in Hflow.
  unfold flow_mapping. rewrite Hflow. split; [done|]. split; [done|].
  by apply (load_physical_id_mapping_spec self cfn h m).
Qed.

(** C8. [create_sync_flow] returns [None], and does not raise, when the
    identifier is not resolved, when the resolved resource has no [Type], and
    when its [Type] is a string, or any other hashable value, that has no
    entry in the table. *)
Theorem create_sync_flow_not_applicable self identifier :
  (get_resource_by_id (_stacks self) identifier explicit_nested_default = None ->
   create_sync_flow self identifier = Ok None)
  /\ (forall resource,
        get_resource_by_id (_stacks self) identifier explicit_nested_default
        = Some resource ->
        dict_get "Type" resource = None ->
        create_sync_flow self identifier = Ok None)
  /\ (forall resource resource_type,
        get_resource_by_id (_stacks self) identifier explicit_nested_default
        = Some resource ->
        dict_get "Type" resource = Some resource_type ->
        hashable resource_type = true ->
        (forall t, resource_type = VStr t ->
           FLOW_FACTORY_FUNCTIONS (BuildContext := BuildContext) !! t = None) ->
        create_sync_flow self identifier = Ok None).
Proof.
  unfold create_sync_flow. split; [|split].
  - by intros ->.
  - intros resource -> Htype. destruct resource; [done|]. by rewrite Htype.
  - intros resource resource_type -> Htype Hhash Hentry.
    destruct resource; [done|]. rewrite Htype.
    destruct (negb (truthy resource_type)); [done|].
    destruct resource_type as [| | |t| |]; simpl; try done.
    by rewrite (Hentry t eq_refl).
Qed.

(** C10. A resolved resource whose [Type] is one of the layer or API types
    has an entry in the table, a stub, and [create_sync_flow] returns [None]
    for it, as it does for a type without an entry. *)
Theorem create_sync_flow_stub_types self identifier resource t :
  get_resource_by_id (_stacks self) identifier explicit_nested_default
  = Some resource ->
  dict_get "Type" resource = Some (VStr t) ->
  t ∈ [SERVERLESS_LAYER; LAMBDA_LAYER; SERVERLESS_API; APIGATEWAY_RESTAPI;
       SERVERLESS_HTTP_API; APIGATEWAY_V2_API] ->
  is_Some (FLOW_FACTORY_FUNCTIONS (BuildContext := BuildContext) !! t)
  /\ create_sync_flow self identifier = Ok None.
Proof.
  intros Hres Htype (fn & Hfn & Hstub)%table_stub.
  split; [by rewrite Hfn|].
  unfold create_sync_flow. rewrite Hres.
  destruct resource; [done|]. rewrite Htype.
  destruct (negb (truthy (VStr t))); [done|].
  simpl. rewrite Hfn. by destruct Hstub as [-> | [-> | ->]].
Qed.

End Dispatch.

(** ** The deployment of the examples *)

Example create_sync_flow_function1 :
  create_sync_flow (PT := Deployment.package_types) (RT := Deployment.resource_types)
  (RD := Deployment.resolver_default)
    Deployment.factory (ResourceIdentifier.parse "Function1")
  = Ok (Some Deployment.function1_flow).
Proof. vm_compute. reflexivity. Qed.

(** C2, a function that does not say how it is packaged: it has no packaging
    kind, and the constructor makes a zip flow for it, not [None]. *)
Lemma create_lambda_flow_missing_kind :
  packaging_kind Deployment.plain_function = None
  /\ _create_lambda_flow (PT := Deployment.package_types)
       Deployment.factory "Function1" Deployment.plain_function
     = Ok (Some Deployment.function1_flow)
  /\ _create_lambda_flow (PT := Deployment.package_types)
       Deployment.factory "Function1" Deployment.plain_function
     <> Ok None.
Proof. vm_compute. repeat split; discriminate. Qed.

Lemma create_lambda_flow_by_packaging_kind_witness :
  _create_lambda_flow (PT := Deployment.package_types)
    Deployment.factory "Function2" Deployment.zip_function
  = Ok (Some (ZipFunctionSyncFlow "Function2" tt Deployment.deploy_context
                (_physical_id_mapping Deployment.factory) Deployment.stacks))
  /\ _create_lambda_flow (PT := Deployment.package_types)
       Deployment.factory "NestedStack1/Function3" Deployment.image_function
     = Ok (Some (ImageFunctionSyncFlow "NestedStack1/Function3" tt
                   Deployment.deploy_context
                   (_physical_id_mapping Deployment.factory) Deployment.stacks))
  /\ _create_lambda_flow (PT := Deployment.package_types)
       Deployment.factory "NestedStack1/Function4" Deployment.odd_function
     = Ok None.
Proof.
  split; [|split].
  - apply (proj1 (create_lambda_flow_by_packaging_kind
                    (PT := Deployment.package_types)
                    Deployment.factory "Function2" Deployment.zip_function
                    eq_refl)).
    right. reflexivity.
  - apply (proj1 (proj2 (create_lambda_flow_by_packaging_kind
                           (PT := Deployment.package_types)
                           Deployment.factory "NestedStack1/Function3"
                           Deployment.image_function eq_refl))).
    + discriminate.
    + reflexivity.
  - apply (proj2 (proj2 (create_lambda_flow_by_packaging_kind
                           (PT := Deployment.package_types)
                           Deployment.factory "NestedStack1/Function4"
                           Deployment.odd_function eq_refl))
             (VStr "Jar")).
    + reflexivity.
    + discriminate.
    + discriminate.
Defined.

(** C3, a flow made after the first load and a second load after it: the
    flow sees the entries of the second load, not those of the first. *)
Lemma flow_mapping_changes_on_reload :
  let reloaded := (load_physical_id_mapping Deployment.factory
                     Deployment.deployed_later Deployment.heap1).1 in
  create_sync_flow (PT := Deployment.package_types) (RT := Deployment.resource_types)
  (RD := Deployment.resolver_default)
    Deployment.factory (ResourceIdentifier.parse "Function1")
  = Ok (Some Deployment.function1_flow)
  /\ flow_mapping Deployment.function1_flow Deployment.heap1
     = Some {[ "Function1" := "app-Function1-AAA" ]}
  /\ flow_mapping Deployment.function1_flow reloaded
     = Some (assign_all [("Function1", "app-Function1-BBB");
                         ("Function3", "app-Function3-CCC")] ∅)
  /\ flow_mapping Deployment.function1_flow reloaded
     <> flow_mapping Deployment.function1_flow Deployment.heap1.
Proof. vm_compute. repeat split; discriminate. Qed.

Lemma flow_shares_physical_id_mapping_witness :
  flow_mapping_ref Deployment.function1_flow
  = _physical_id_mapping Deployment.factory
  /\ flow_mapping Deployment.function1_flow Deployment.heap1
     = Some {[ "Function1" := "app-Function1-AAA" ]}
  /\ flow_mapping Deployment.function1_flow
       (load_physical_id_mapping Deployment.factory Deployment.deployed_later
          Deployment.heap1).1
     = Some (assign_all
               (yielded (Deployment.deployed_later
                           (_boto_config Deployment.factory)
                           (stack_name (_deploy_context Deployment.factory))))
               ∅).
Proof.
  assert (H : Deployment.heap1 !! _physical_id_mapping Deployment.factory
              = Some {[ "Function1" := "app-Function1-AAA" ]})
    by (vm_compute; reflexivity).
  apply (flow_shares_physical_id_mapping
           (PT := Deployment.package_types) (RT := Deployment.resource_types)
           (RD := Deployment.resolver_default)
           Deployment.factory (ResourceIdentifier.parse "Function1")
           Deployment.function1_flow Deployment.deployed_later Deployment.heap1 _).
  - vm_compute. reflexivity.
  - exact H.
Defined.

Lemma create_sync_flow_not_applicable_witness :
  create_sync_flow (PT := Deployment.package_types) (RT := Deployment.resource_types)
  (RD := Deployment.resolver_default)
    Deployment.factory (ResourceIdentifier.mk "" "Missing1")
  = Ok None
  /\ create_sync_flow (PT := Deployment.package_types)
       (RT := Deployment.resource_types)
       (RD := Deployment.resolver_default)
       Deployment.factory (ResourceIdentifier.mk "" "Untyped1")
     = Ok None
  /\ create_sync_flow (PT := Deployment.package_types)
       (RT := Deployment.resource_types)
       (RD := Deployment.resolver_default)
       Deployment.factory (ResourceIdentifier.mk "" "Bucket1")
     = Ok None.
Proof.
  split; [|split].
  - apply (proj1 (create_sync_flow_not_applicable
                    (PT := Deployment.package_types)
                    (RT := Deployment.resource_types)
                    (RD := Deployment.resolver_default)
                    Deployment.factory (ResourceIdentifier.mk "" "Missing1"))).
    reflexivity.
  - apply (proj1 (proj2 (create_sync_flow_not_applicable
                           (PT := Deployment.package_types)
                           (RT := Deployment.resource_types)
                           (RD := Deployment.resolver_default)
                           Deployment.factory
                           (ResourceIdentifier.mk "" "Untyped1")))
             Deployment.untyped).
    + reflexivity.
    + reflexivity.
  - apply (proj2 (proj2 (create_sync_flow_not_applicable
                           (PT := Deployment.package_types)
                           (RT := Deployment.resource_types)
                           (RD := Deployment.resolver_default)
                           Deployment.factory
                           (ResourceIdentifier.mk "" "Bucket1")))
             Deployment.bucket (VStr "AWS::S3::Bucket")).
    + reflexivity.
    + reflexivity.
    + reflexivity.
    + intros t [= <-]. vm_compute. reflexivity.
Defined.

Lemma create_sync_flow_stub_types_witness :
  is_Some (FLOW_FACTORY_FUNCTIONS (BuildContext := unit)
             (PT := Deployment.package_types) (RT := Deployment.resource_types)
           !! "AWS::Lambda::LayerVersion")
  /\ create_sync_flow (PT := Deployment.package_types)
       (RT := Deployment.resource_types)
       (RD := Deployment.resolver_default)
       Deployment.factory (ResourceIdentifier.mk "" "Layer1")
     = Ok None.
Proof.
  apply (create_sync_flow_stub_types
           (PT := Deployment.package_types) (RT := Deployment.resource_types)
           (RD := Deployment.resolver_default)
           Deployment.factory (ResourceIdentifier.mk "" "Layer1")
           Deployment.layer "AWS::Lambda::LayerVersion").
  - reflexivity.
  - reflexivity.
  - simpl. set_solver.
Defined.

(** * Further properties of the factory *)

(** ** The store after [__init__] and after a load *)

Lemma store_summaries_heap l rs (h : heap) :
  (store_summaries l rs h).1 = alter (assign_all (yielded rs)) l h.
Proof.
  revert h. induction rs as [|e|k v rest IH]; intros h; simpl.
  - apply map_eq. intros i. rewrite lookup_alter. case_decide; [subst|done].
    by destruct (h !! i).
  - apply map_eq. intros i. rewrite lookup_alter. case_decide; [subst|done].
    by destruct (h !! i).
  - rewrite IH. apply map_eq. intros i. destruct (decide (l = i)) as [<-|Hne].
    + rewrite !lookup_alter_eq. by destruct (h !! l).
    + by rewrite !lookup_alter_ne.
Qed.

Lemma store_summaries_result l rs (h : heap) :
  (store_summaries l rs h).2 = outcome rs.
Proof. revert h. induction rs as [|e|k v rest IH]; intros h; simpl; done. Qed.

Lemma dict_get_app {V : Type} (k : string) (d d' : dict V) :
  dict_get k (d ++ d')%list
  = match dict_get k d with Some v => Some v | None => dict_get k d' end.
Proof.
  induction d as [|[k' v] d IH]; simpl; [done|].
  by destruct (String.eqb k' k).
Qed.

(** Assigning the entries of a list in order leaves, under each key, the
    value of its last entry. *)
Lemma assign_all_lookup l (m : gmap string string) k :
  assign_all l m !! k
  = match dict_get k (rev l) with Some v => Some v | None => m !! k end.
Proof.
  revert m. induction l as [|[k' v'] l IH]; intros m; simpl; [done|].
  change (assign_all ((k', v') :: l) m) with (assign_all l (<[k' := v']> m)).
  rewrite IH, dict_get_app. destruct (dict_get k (rev l)); [done|]. simpl.
  destruct (String.eqb k' k) eqn:Hk.
  - apply String.eqb_eq in Hk as ->. by rewrite lookup_insert_eq.
  - apply String.eqb_neq in Hk. by rewrite lookup_insert_ne.
Qed.

Section Store.

Context {BuildContext : Type}.
Implicit Types (self : @SyncFlowFactory BuildContext) (flow : @SyncFlow BuildContext).
Implicit Types (h : heap) (cfn : cloudformation).

Lemma load_physical_id_mapping_heap self cfn h :
  (load_physical_id_mapping self cfn h).1
  = alter (fun _ => assign_all
                      (yielded (cfn (_boto_config self)
                                  (stack_name (_deploy_context self)))) ∅)
      (_physical_id_mapping self) h.
Proof.
  unfold load_physical_id_mapping. rewrite store_summaries_heap.
  apply map_eq. intros i.
  destruct (decide (_physical_id_mapping self = i)) as [<-|Hne].
  - rewrite !lookup_alter_eq. by destruct (h !! _).
  - by rewrite !lookup_alter_ne.
Qed.

Lemma init_store (build_context : BuildContext) (deploy_context : DeployContext)
    (stacks : list (Stack.t (dict value))) h :
  h !! _physical_id_mapping (__init__ build_context deploy_context stacks h).1 = None
  /\ (__init__ build_context deploy_context stacks h).2
       !! _physical_id_mapping (__init__ build_context deploy_context stacks h).1
     = Some ∅
  /\ (forall l,
        l <> _physical_id_mapping (__init__ build_context deploy_context stacks h).1 ->
        (__init__ build_context deploy_context stacks h).2 !! l = h !! l).
Proof.
  unfold __init__. simpl. split; [|split].
  - apply not_elem_of_dom, is_fresh.
  - apply lookup_insert_eq.
  - intros l Hl. by apply lookup_insert_ne.
Qed.

(** X2. Two factories do not share a mapping: a factory made while another
    one's mapping is in the store gets a different dict, a load of either
    leaves the dict of the other as it is, and a flow of the first still sees
    the first one's entries after the second has loaded. *)
Theorem factories_do_not_share_mapping `{PT : PackageTypes} `{RT : ResourceTypes}
    `{RD : ResolverDefault}
    self (build_context : BuildContext) (deploy_context : DeployContext)
    (stacks : list (Stack.t (dict value))) h m cfn :
  h !! _physical_id_mapping self = Some m ->
  _physical_id_mapping (__init__ build_context deploy_context stacks h).1
  <> _physical_id_mapping self
  /\ (load_physical_id_mapping (__init__ build_context deploy_context stacks h).1 cfn
        (__init__ build_context deploy_context stacks h).2).1
       !! _physical_id_mapping self = Some m
  /\ (load_physical_id_mapping self cfn
        (__init__ build_context deploy_context stacks h).2).1
       !! _physical_id_mapping (__init__ build_context deploy_context stacks h).1
     = Some ∅
  /\ (forall identifier flow,
        create_sync_flow self identifier = Ok (Some flow) ->
        flow_mapping flow
          (load_physical_id_mapping
             (__init__ build_context deploy_context stacks h).1 cfn
             (__init__ build_context deploy_context stacks h).2).1
        = Some m).
Proof.
  intros Hm.
  destruct (init_store build_context deploy_context stacks h)
    as (Hfresh & Hnew & Hold).
  set (other := (__init__ build_context deploy_context stacks h).1) in *.
  set (h' := (__init__ build_context deploy_context stacks h).2) in *.
  assert (Hne : _physical_id_mapping other <> _physical_id_mapping self)
    by congruence.
  assert (Hkept : (load_physical_id_mapping other cfn h').1
                    !! _physical_id_mapping self = Some m).
  { rewrite load_physical_id_mapping_heap, lookup_alter_ne by done.
    rewrite Hold by done. exact Hm. }
  split; [done|]. split; [done|]. split.
  - rewrite load_physical_id_mapping_heap, lookup_alter_ne by done. exact Hnew.
  - intros identifier flow (resource & _ & Hflow)%create_sync_flow_some.
    apply create_lambda_flow_ref in Hflow.
    unfold flow_mapping. by rewrite Hflow.
Qed.

(** X3. Loading twice from the same deployed state is the same as loading
    once: the store and the outcome of the second load are those of the
    first. *)
Theorem load_physical_id_mapping_idempotent self cfn h :
  load_physical_id_mapping self cfn (load_physical_id_mapping self cfn h).1
  = load_physical_id_mapping self cfn h.
Proof.
  apply injective_projections.
  - rewrite !load_physical_id_mapping_heap.
    apply map_eq. intros i.
    destruct (decide (_physical_id_mapping self = i)) as [<-|Hne].
    + rewrite !lookup_alter_eq. by destruct (h !! _).
    + by rewrite !lookup_alter_ne.
  - unfold load_physical_id_mapping. by rewrite !store_summaries_result.
Qed.

(** X4. After a load the mapping has, under each logical id, the physical id
    of the last summary the fetch yielded for it, and no entry for a logical
    id the fetch did not yield, whatever the mapping held before. *)
Theorem load_physical_id_mapping_last_summary_wins self cfn h m :
  h !! _physical_id_mapping self = Some m ->
  exists loaded,
    (load_physical_id_mapping self cfn h).1 !! _physical_id_mapping self
    = Some loaded
    /\ forall logical_id,
         loaded !! logical_id
         = dict_get logical_id
             (rev (yielded (cfn (_boto_config self)
                              (stack_name (_deploy_context self))))).
Proof.
  intros Hm. eexists. split.
  - rewrite load_physical_id_mapping_heap, lookup_alter_eq, Hm. reflexivity.
  - intros logical_id. rewrite assign_all_lookup.
    by destruct (dict_get logical_id _).
Qed.

End Store.

(** ** What [create_sync_flow] dispatches to, returns and raises *)

Section DispatchFurther.

Context {BuildContext : Type}.
Context `{PT : PackageTypes} `{RT : ResourceTypes} `{RD : ResolverDefault}.
Implicit Types (self : @SyncFlowFactory BuildContext) (flow : @SyncFlow BuildContext).
Implicit Types (resource : dict value) (identifier : ResourceIdentifier.t).

(** The function entries are the constructor of function flows, unless a
    layer or API type has the same name. *)
Lemma table_function (t : string) :
  t ∈ [LAMBDA_FUNCTION; SERVERLESS_FUNCTION] ->
  t ∉ [SERVERLESS_LAYER; LAMBDA_LAYER; SERVERLESS_API; APIGATEWAY_RESTAPI;
       SERVERLESS_HTTP_API; APIGATEWAY_V2_API] ->
  FLOW_FACTORY_FUNCTIONS (BuildContext := BuildContext) !! t
  = Some _create_lambda_flow.
Proof.
  unfold FLOW_FACTORY_FUNCTIONS, dict_display. simpl.
  intros Hin Hout. rewrite !lookup_insert.
  repeat (case_decide;
          [try done; exfalso; apply Hout; subst; rewrite !elem_of_cons; auto 10|]).
  exfalso. repeat (apply elem_of_cons in Hin as [->|Hin]; [done|]).
  by apply elem_of_nil in Hin.
Qed.


(** X6. A resolved resource whose [Type] is one of the two function types,
    a non-empty name that no layer or API type shares, is handed to
    [_create_lambda_flow] together with the printed identifier, and what that
    constructor returns or raises is the outcome. *)
Theorem create_sync_flow_function_types self identifier resource t :
  get_resource_by_id (_stacks self) identifier explicit_nested_default
  = Some resource ->
  dict_get "Type" resource = Some (VStr t) ->
  t <> "" ->
  t ∈ [LAMBDA_FUNCTION; SERVERLESS_FUNCTION] ->
  t ∉ [SERVERLESS_LAYER; LAMBDA_LAYER; SERVERLESS_API; APIGATEWAY_RESTAPI;
       SERVERLESS_HTTP_API; APIGATEWAY_V2_API] ->
  create_sync_flow self identifier
  = _create_lambda_flow self (ResourceIdentifier.to_string identifier) resource.
Proof.
  intros Hres Htype Hne Hin Hout.
  unfold create_sync_flow. rewrite Hres.
  destruct resource as [|item rest]; [done|]. rewrite Htype. simpl.
  apply String.eqb_neq in Hne. rewrite Hne. simpl.
  by rewrite (table_function t Hin Hout).
Qed.

(** X7. A flow that [create_sync_flow] returns is a zip or an image flow
    made with the printed identifier and with the factory's own build
    context, deploy context, mapping and stacks. *)
Theorem create_sync_flow_flow_arguments self identifier flow :
  create_sync_flow self identifier = Ok (Some flow) ->
  flow = ZipFunctionSyncFlow (ResourceIdentifier.to_string identifier)
           (_build_context self) (_deploy_context self)
           (_physical_id_mapping self) (_stacks self)
  \/ flow = ImageFunctionSyncFlow (ResourceIdentifier.to_string identifier)
              (_build_context self) (_deploy_context self)
              (_physical_id_mapping self) (_stacks self).
Proof.
  intros (resource & _ & Hflow)%create_sync_flow_some.
  unfold _create_lambda_flow in Hflow.
  destruct (get_package_type resource) as [package_type|e]; [|done].
  destruct (value_eq_str package_type ZIP); [left; congruence|].
  destruct (value_eq_str package_type IMAGE); [right; congruence|done].
Qed.


(** X9. What the [Type] of a resolved resource does when it is not a
    non-empty string: a falsy value, the empty list and the empty mapping
    among them, gives [None] before the table is looked at; a non-empty list
    or mapping makes the lookup raise [TypeError]; a number or [True] is
    looked up, found under no key, and gives [None]. *)
Theorem create_sync_flow_type_values self identifier resource resource_type :
  get_resource_by_id (_stacks self) identifier explicit_nested_default
  = Some resource ->
  dict_get "Type" resource = Some resource_type ->
  (truthy resource_type = false -> create_sync_flow self identifier = Ok None)
  /\ (truthy resource_type = true -> hashable resource_type = false ->
      create_sync_flow self identifier = Raise TypeError)
  /\ (truthy resource_type = true -> hashable resource_type = true ->
      (forall t, resource_type <> VStr t) ->
      create_sync_flow self identifier = Ok None).
Proof.
  intros Hres Htype. unfold create_sync_flow. rewrite Hres.
  destruct resource as [|item rest]; [done|]. rewrite Htype.
  split; [|split].
  - by intros ->.
  - intros -> Hhash. by destruct resource_type.
  - intros -> Hhash Hstr. destruct resource_type as [| | |t| |]; try done.
    by destruct (Hstr t).
Qed.

End DispatchFurther.

(** ** Identifiers and the resolver *)

Lemma to_string_path_join (r : ResourceIdentifier.t) :
  ResourceIdentifier.to_string r
  = path_join (ResourceIdentifier.stack_path r) (ResourceIdentifier.logical_id r).
Proof.
  destruct r as [path logical_id]. unfold ResourceIdentifier.to_string, path_join.
  simpl. destruct (String.eqb path "") eqn:Hpath; [|done].
  by apply String.eqb_eq in Hpath as ->.
Qed.

Lemma parse_logical_id_no_sep s :
  contains_sep (ResourceIdentifier.logical_id (ResourceIdentifier.parse s)) = false.
Proof.
  unfold ResourceIdentifier.parse.
  destruct (rsplit_sep s) as [[before after]|] eqn:Hs; simpl.
  - by apply rsplit_sep_some in Hs as [_ ?].
  - by apply rsplit_sep_none.
Qed.

(** X10. Printing an identifier and parsing the result gives the identifier
    back exactly when its logical id has no [/]: a [/] in the logical id is
    read as part of the stack path. (The identifier class is modelled from the
    spec and its unit tests.) *)
Theorem parse_to_string_iff (r : ResourceIdentifier.t) :
  ResourceIdentifier.parse (ResourceIdentifier.to_string r) = r
  <-> contains_sep (ResourceIdentifier.logical_id r) = false.
Proof.
  split.
  - intros <-. apply parse_logical_id_no_sep.
  - intros Hid. rewrite to_string_path_join, parse_path_join by done.
    by destruct r.
Qed.

(** X11. Two well-formed identifier strings that parse to the same identifier
    are the same string. (The identifier class is modelled from the spec and
    its unit tests.) *)
Theorem parse_injective (s1 s2 : string) :
  well_formed s1 = true -> well_formed s2 = true ->
  ResourceIdentifier.parse s1 = ResourceIdentifier.parse s2 ->
  s1 = s2.
Proof.
  intros H1%to_string_parse_iff H2%to_string_parse_iff Heq.
  by rewrite <- H1, <- H2, Heq.
Qed.

Lemma NoDup_map_eq {A B : Type} (f : A -> B) (l : list A) (x y : A) :
  NoDup (map f l) -> x ∈ l -> y ∈ l -> f x = f y -> x = y.
Proof.
  induction l as [|a l IH]; simpl; intros Hnd Hx Hy Hf.
  - by apply elem_of_nil in Hx.
  - apply NoDup_cons in Hnd as [Ha Hnd].
    apply elem_of_cons in Hx as [->|Hx]; apply elem_of_cons in Hy as [->|Hy].
    + done.
    + exfalso. apply Ha. rewrite Hf. apply list_elem_of_In, in_map.
      by apply list_elem_of_In.
    + exfalso. apply Ha. rewrite <- Hf. apply list_elem_of_In, in_map.
      by apply list_elem_of_In.
    + by apply IH.
Qed.

Lemma dict_get_elem {V : Type} (d : dict V) (k : string) (v : V) :
  NoDup (map fst d) -> (k, v) ∈ d -> dict_get k d = Some v.
Proof.
  induction d as [|[k' v'] d IH]; simpl; intros Hnd Hin.
  - by apply elem_of_nil in Hin.
  - apply NoDup_cons in Hnd as [Hk' Hnd].
    apply elem_of_cons in Hin as [[= -> ->]|Hin].
    + by rewrite String.eqb_refl.
    + destruct (String.eqb k' k) eqn:Hk; [|by apply IH].
      apply String.eqb_eq in Hk as ->. exfalso. apply Hk'.
      apply list_elem_of_In. change k with (fst (k, v)). apply in_map.
      by apply list_elem_of_In.
Qed.

(** X12. The scan by type and explicit resolution fit together: over stacks
    with distinct full paths, each with distinct logical ids without [/],
    every identifier the scan returns for a type resolves in explicit mode to
    a resource of that type. (Both resolver functions are modelled from the
    spec and their unit tests.) *)
Theorem get_resources_by_type_resolvable (stacks : list (Stack.t (dict value)))
    (resource_type : string) (identifier : ResourceIdentifier.t) :
  NoDup (map Stack.stack_path stacks) ->
  (forall stack, stack ∈ stacks -> NoDup (map fst (Stack.resources stack))) ->
  (forall stack logical_id resource,
     stack ∈ stacks -> (logical_id, resource) ∈ Stack.resources stack ->
     contains_sep logical_id = false) ->
  identifier ∈ get_resources_by_type stacks resource_type ->
  exists resource,
    get_resource_by_id stacks identifier true = Some resource
    /\ dict_get "Type" resource = Some (VStr resource_type).
Proof.
  intros Hpaths Hids Hsep Hin.
  unfold get_resources_by_type in Hin. rewrite scan_types_acc in Hin.
  apply matching_identifiers_elem in Hin
    as (stack & logical_id & resource & Hstack & Hitem & Htype & ->).
  rewrite parse_path_join by eauto.
  exists resource. split.
  - unfold get_resource_by_id. simpl.
    rewrite (find_stack_unique (Stack.stack_path stack) stacks stack); [|done..|].
    + apply dict_get_elem; auto.
    + intros other Hother Hpath.
      by apply (NoDup_map_eq Stack.stack_path stacks).
  - unfold has_type in Htype.
    destruct (dict_get "Type" resource) as [[| | |t| |]|]; try done.
    simpl in Htype. by apply String.eqb_eq in Htype as ->.
Qed.

(** ** The further properties on the examples *)

Lemma factories_do_not_share_mapping_witness :
  _physical_id_mapping
    (__init__ tt Deployment.deploy_context Deployment.stacks Deployment.heap1).1
  <> _physical_id_mapping Deployment.factory
  /\ (load_physical_id_mapping
        (__init__ tt Deployment.deploy_context Deployment.stacks Deployment.heap1).1
        Deployment.deployed_later
        (__init__ tt Deployment.deploy_context Deployment.stacks Deployment.heap1).2).1
       !! _physical_id_mapping Deployment.factory
     = Some {[ "Function1" := "app-Function1-AAA" ]}.
Proof.
  assert (H : Deployment.heap1 !! _physical_id_mapping Deployment.factory
              = Some {[ "Function1" := "app-Function1-AAA" ]})
    by (vm_compute; reflexivity).
  pose proof (factories_do_not_share_mapping
                (PT := Deployment.package_types) (RT := Deployment.resource_types)
                (RD := Deployment.resolver_default)
                Deployment.factory tt Deployment.deploy_context Deployment.stacks
                Deployment.heap1 _ Deployment.deployed_later H) as (H1 & H2 & _).
  split; [exact H1|exact H2].
Defined.

Lemma load_physical_id_mapping_last_summary_wins_witness :
  exists loaded,
    (load_physical_id_mapping Deployment.factory Deployment.deployed_later
       Deployment.heap1).1 !! _physical_id_mapping Deployment.factory
    = Some loaded
    /\ forall logical_id,
         loaded !! logical_id
         = dict_get logical_id
             (rev (yielded (Deployment.deployed_later
                              (_boto_config Deployment.factory)
                              (stack_name (_deploy_context Deployment.factory))))).
Proof.
  assert (H : Deployment.heap1 !! _physical_id_mapping Deployment.factory
              = Some {[ "Function1" := "app-Function1-AAA" ]})
    by (vm_compute; reflexivity).
  exact (load_physical_id_mapping_last_summary_wins Deployment.factory
           Deployment.deployed_later Deployment.heap1 _ H).
Defined.



Lemma create_sync_flow_function_types_witness :
  create_sync_flow (PT := Deployment.package_types) (RT := Deployment.resource_types)
  (RD := Deployment.resolver_default)
    Deployment.factory (ResourceIdentifier.mk "" "Function2")
  = _create_lambda_flow (PT := Deployment.package_types)
      Deployment.factory "Function2" Deployment.zip_function.
Proof.
  apply (create_sync_flow_function_types
           (PT := Deployment.package_types) (RT := Deployment.resource_types)
           (RD := Deployment.resolver_default)
           Deployment.factory (ResourceIdentifier.mk "" "Function2")
           Deployment.zip_function "AWS::Serverless::Function").
  - reflexivity.
  - reflexivity.
  - discriminate.
  - simpl. rewrite !elem_of_cons. auto.
  - simpl. rewrite !elem_of_cons, elem_of_nil.
    intros H. repeat (destruct H as [H|H]; [discriminate H|]). exact H.
Defined.

Lemma create_sync_flow_flow_arguments_witness :
  Deployment.function1_flow
  = ZipFunctionSyncFlow
      (ResourceIdentifier.to_string (ResourceIdentifier.parse "Function1"))
      (_build_context Deployment.factory) (_deploy_context Deployment.factory)
      (_physical_id_mapping Deployment.factory) (_stacks Deployment.factory)
  \/ Deployment.function1_flow
     = ImageFunctionSyncFlow
         (ResourceIdentifier.to_string (ResourceIdentifier.parse "Function1"))
         (_build_context Deployment.factory) (_deploy_context Deployment.factory)
         (_physical_id_mapping Deployment.factory) (_stacks Deployment.factory).
Proof.
  apply (create_sync_flow_flow_arguments
           (PT := Deployment.package_types) (RT := Deployment.resource_types)
           (RD := Deployment.resolver_default)
           Deployment.factory (ResourceIdentifier.parse "Function1")).
  vm_compute. reflexivity.
Defined.


Lemma create_sync_flow_type_values_witness :
  create_sync_flow (PT := Deployment.package_types) (RT := Deployment.resource_types)
  (RD := Deployment.resolver_default)
    Malformed.factory (ResourceIdentifier.mk "" "EmptyListTyped")
  = Ok None
  /\ create_sync_flow (PT := Deployment.package_types)
       (RT := Deployment.resource_types)
       (RD := Deployment.resolver_default)
       Malformed.factory (ResourceIdentifier.mk "" "ListTyped")
     = Raise TypeError
  /\ create_sync_flow (PT := Deployment.package_types)
       (RT := Deployment.resource_types)
       (RD := Deployment.resolver_default)
       Malformed.factory (ResourceIdentifier.mk "" "NumberTyped")
     = Ok None.
Proof.
  split; [|split].
  - apply (proj1 (create_sync_flow_type_values
                    (PT := Deployment.package_types)
                    (RT := Deployment.resource_types)
                    (RD := Deployment.resolver_default)
                    Malformed.factory (ResourceIdentifier.mk "" "EmptyListTyped")
                    Malformed.empty_list_typed (VList []) eq_refl eq_refl)).
    reflexivity.
  - apply (proj1 (proj2 (create_sync_flow_type_values
                           (PT := Deployment.package_types)
                           (RT := Deployment.resource_types)
                           (RD := Deployment.resolver_default)
                           Malformed.factory (ResourceIdentifier.mk "" "ListTyped")
                           Malformed.list_typed
                           (VList [VStr "AWS::Lambda::Function"])
                           eq_refl eq_refl)));
      reflexivity.
  - apply (proj2 (proj2 (create_sync_flow_type_values
                           (PT := Deployment.package_types)
                           (RT := Deployment.resource_types)
                           (RD := Deployment.resolver_default)
                           Malformed.factory (ResourceIdentifier.mk "" "NumberTyped")
                           Malformed.number_typed (VInt 1) eq_refl eq_refl)));
      [reflexivity|reflexivity|discriminate].
Defined.

Lemma parse_to_string_iff_witness :
  ResourceIdentifier.parse
    (ResourceIdentifier.to_string (ResourceIdentifier.mk "NestedStack1" "Function1"))
  = ResourceIdentifier.mk "NestedStack1" "Function1".
Proof.
  apply (proj2 (parse_to_string_iff (ResourceIdentifier.mk "NestedStack1" "Function1"))).
  reflexivity.
Defined.

Lemma parse_injective_witness :
  "NestedStack1/Function1" = "NestedStack1/Function1".
Proof.
  apply (parse_injective "NestedStack1/Function1" "NestedStack1/Function1");
    reflexivity.
Defined.

Lemma get_resources_by_type_resolvable_witness :
  exists resource,
    get_resource_by_id TestGetResourcesByType.stacks
      (ResourceIdentifier.parse "NestedStack1/Function1") true
    = Some resource
    /\ dict_get "Type" resource = Some (VStr "TypeA").
Proof.
  apply (get_resources_by_type_resolvable TestGetResourcesByType.stacks "TypeA"
           (ResourceIdentifier.parse "NestedStack1/Function1")).
  - apply (bool_decide_unpack _). vm_compute. exact I.
  - intros stack H. unfold TestGetResourcesByType.stacks in H.
    repeat (apply elem_of_cons in H as [->|H];
            [apply (bool_decide_unpack _); vm_compute; exact I|]).
    by apply elem_of_nil in H.
  - intros stack logical_id resource H Hitem.
    unfold TestGetResourcesByType.stacks in H.
    repeat (apply elem_of_cons in H as [->|H];
            [simpl in Hitem; apply list_elem_of_singleton in Hitem as [= -> ->];
             reflexivity|]).
    by apply elem_of_nil in H.
  - vm_compute. right. left.
Defined.

(** ** Flows made before the first load *)

Section BeforeLoad.

Context {BuildContext : Type}.
Context `{PT : PackageTypes} `{RT : ResourceTypes} `{RD : ResolverDefault}.

(** X13. [create_sync_flow] does not wait for a load: on a factory that has
    only been made, a flow it returns sees an empty mapping, and after the
    first load the same flow sees the entries that load fetched. *)
Theorem flow_before_first_load (build_context : BuildContext)
    (deploy_context : DeployContext) (stacks : list (Stack.t (dict value)))
    (h : heap) (cfn : cloudformation) (identifier : ResourceIdentifier.t)
    (flow : @SyncFlow BuildContext) :
  create_sync_flow (__init__ build_context deploy_context stacks h).1 identifier
  = Ok (Some flow) ->
  flow_mapping flow (__init__ build_context deploy_context stacks h).2 = Some ∅
  /\ flow_mapping flow
       (load_physical_id_mapping (__init__ build_context deploy_context stacks h).1
          cfn (__init__ build_context deploy_context stacks h).2).1
     = Some (assign_all
               (yielded
                  (cfn (_boto_config (__init__ build_context deploy_context stacks h).1)
                     (stack_name deploy_context)))
               ∅).
Proof.
  intros (resource & _ & Hflow)%create_sync_flow_some.
  apply create_lambda_flow_ref in Hflow.
  destruct (init_store build_context deploy_context stacks h)
    as (_ & Hnew & _).
  unfold flow_mapping. rewrite Hflow. split; [exact Hnew|].
  rewrite load_physical_id_mapping_heap, lookup_alter_eq, Hnew. reflexivity.
Qed.

End BeforeLoad.

Lemma flow_before_first_load_witness :
  flow_mapping Deployment.function1_flow Deployment.heap0 = Some ∅
  /\ flow_mapping Deployment.function1_flow
       (load_physical_id_mapping Deployment.factory Deployment.deployed_first
          Deployment.heap0).1
     = Some (assign_all [("Function1", "app-Function1-AAA")] ∅).
Proof.
  apply (flow_before_first_load
           (PT := Deployment.package_types) (RT := Deployment.resource_types)
           (RD := Deployment.resolver_default)
           tt Deployment.deploy_context Deployment.stacks ∅
           Deployment.deployed_first (ResourceIdentifier.parse "Function1")
           Deployment.function1_flow).
  vm_compute. reflexivity.
Defined.
